(** * biokleen.com documentation scraper: a shallow embedding of [main.py]

    The script fetches one product page, extracts the links that point
    to PDF documents, downloads every one of them through a browser,
    and finally sweeps the download directory, deleting the files that
    do not open as PDF documents and printing the paths whose file name
    contains an upper-case letter.

    A text is modelled as the Rocq [string] of its UTF-8 bytes, so that
    a file holds what was written to it.  Case mapping and character
    classes are written out for ASCII text; for text with other
    characters Python's Unicode tables decide, and their answers are
    inputs of the model.  Sets and dictionaries are stdpp's [gset] and
    [gmap].  The file system, the clock, the standard output and the
    calls made to the collaborators (browser, PDF parser, URL validator)
    are threaded through a state-and-exception monad. *)

From Stdlib Require Import ZArith Lia Ascii String List.
From stdpp Require Import base option list strings gmap.

Local Open Scope string_scope.
Local Open Scope list_scope.

(** ** Python string primitives *)

Module Str.

Definition is_upper (c : ascii) : bool :=
  let n := nat_of_ascii c in (65 <=? n)%nat && (n <=? 90)%nat.

Definition is_lower (c : ascii) : bool :=
  let n := nat_of_ascii c in (97 <=? n)%nat && (n <=? 122)%nat.

Definition is_digit (c : ascii) : bool :=
  let n := nat_of_ascii c in (48 <=? n)%nat && (n <=? 57)%nat.

Definition lower_char (c : ascii) : ascii :=
  if is_upper c then ascii_of_nat (nat_of_ascii c + 32) else c.

(** [str.lower()] on the ASCII letters; the other bytes are kept *)
Fixpoint lower (s : string) : string :=
  match s with
  | EmptyString => EmptyString
  | String c r => String (lower_char c) (lower r)
  end.

(** [str.endswith(suffix)] *)
Definition endswith (s suffix : string) : bool :=
  let n := String.length s in
  let m := String.length suffix in
  (m <=? n)%nat && String.eqb (substring (n - m) m s) suffix.

(** [str.startswith(prefix)] *)
Definition startswith (s p : string) : bool := String.prefix p s.

(** [str.split(sep)] for a one-character separator: the result is
    never empty. *)
Fixpoint split (sep : ascii) (s : string) : list string :=
  match s with
  | EmptyString => [EmptyString]
  | String c r =>
      if Ascii.eqb c sep then EmptyString :: split sep r
      else match split sep r with
           | [] => [String c EmptyString]
           | w :: ws => String c w :: ws
           end
  end.

(** [l[-1]] on a list of strings (the empty string stands for the
    [IndexError] of an empty list, which [split] never returns). *)
Definition last (l : list string) : string := List.last l EmptyString.

(** keep the characters that satisfy [p] *)
Fixpoint filter (p : ascii -> bool) (s : string) : string :=
  match s with
  | EmptyString => EmptyString
  | String c r => if p c then String c (filter p r) else filter p r
  end.

Fixpoint forallb (p : ascii -> bool) (s : string) : bool :=
  match s with
  | EmptyString => true
  | String c r => p c && forallb p r
  end.

Fixpoint existsb (p : ascii -> bool) (s : string) : bool :=
  match s with
  | EmptyString => false
  | String c r => p c || existsb p r
  end.

(** [c in s] for a character *)
Definition contains (c : ascii) (s : string) : bool :=
  existsb (Ascii.eqb c) s.

(** [str.isascii()] *)
Definition is_ascii (s : string) : bool :=
  forallb (fun c => (nat_of_ascii c <? 128)%nat) s.

Definition CR : ascii := ascii_of_nat 13.
Definition LF : ascii := ascii_of_nat 10.

(** what reading in text mode with [newline=None] does to the decoded
    text: a carriage return followed by a line feed, and a carriage
    return alone, are read as one line feed *)
Fixpoint universal_newlines (s : string) : string :=
  match s with
  | EmptyString => EmptyString
  | String c r =>
      if Ascii.eqb c CR then
        String LF
          match r with
          | String c' r' =>
              if Ascii.eqb c' LF then universal_newlines r'
              else universal_newlines r
          | EmptyString => EmptyString
          end
      else String c (universal_newlines r)
  end.

End Str.

(** ** [urllib.parse.unquote]

    [unquote_to_bytes] splits the text on ["%"]; a piece that starts
    with two hexadecimal digits (either case) is replaced by the byte
    they denote, any other piece keeps its ["%"]. *)

Definition hex_value (c : ascii) : option nat :=
  let n := nat_of_ascii c in
  if Str.is_digit c then Some (n - 48)
  else if (65 <=? n)%nat && (n <=? 70)%nat then Some (n - 55)
  else if (97 <=? n)%nat && (n <=? 102)%nat then Some (n - 87)
  else None.

Fixpoint unquote (s : string) : string :=
  match s with
  | EmptyString => EmptyString
  | String c r =>
      if Ascii.eqb c "%" then
        match r with
        | String h (String l r') =>
            match hex_value h, hex_value l with
            | Some a, Some b => String (ascii_of_nat (16 * a + b)) (unquote r')
            | _, _ => String c (unquote r)
            end
        | _ => String c (unquote r)
        end
      else String c (unquote r)
  end.

(** ** [os.path] on POSIX *)

Module Path.

(** [sep.join(comps)] *)
Fixpoint join_with (sep : string) (comps : list string) : string :=
  match comps with
  | [] => ""
  | [c] => c
  | c :: cs => c +:+ sep +:+ join_with sep cs
  end.

(** [os.path.join(a, b)] *)
Definition join (a b : string) : string :=
  if Str.startswith b "/" then b
  else if String.eqb a "" || Str.endswith a "/" then a +:+ b
  else a +:+ "/" +:+ b.

(** [os.path.basename(p)]: the text after the last slash *)
Definition basename (p : string) : string := Str.last (Str.split "/" p).

(** [s.rstrip("/")] *)
Fixpoint rstrip_slash (s : string) : string :=
  match s with
  | EmptyString => EmptyString
  | String c r =>
      let r' := rstrip_slash r in
      if String.eqb r' "" && Ascii.eqb c "/" then EmptyString else String c r'
  end.

(** [os.path.dirname(p)]: the text up to the last slash, without its
    trailing slashes unless it consists of slashes only *)
Definition dirname (p : string) : string :=
  match Str.split "/" p with
  | [] | [_] => ""
  | comps =>
      let head := join_with "/" (removelast comps) +:+ "/" in
      if Str.forallb (Ascii.eqb "/") head then head else rstrip_slash head
  end.

(** the loop of [os.path.normpath]; [new_comps] is kept reversed *)
Fixpoint norm_comps (initial_slashes : nat) (comps new_comps : list string)
  : list string :=
  match comps with
  | [] => rev new_comps
  | comp :: rest =>
      if String.eqb comp "" || String.eqb comp "." then
        norm_comps initial_slashes rest new_comps
      else if negb (String.eqb comp "..")
              || ((initial_slashes =? 0)%nat && bool_decide (new_comps = []))
              || match new_comps with
                 | top :: _ => String.eqb top ".."
                 | [] => false
                 end
      then norm_comps initial_slashes rest (comp :: new_comps)
      else norm_comps initial_slashes rest (tl new_comps)
  end.

(** [os.path.normpath(path)] *)
Definition normpath (path : string) : string :=
  if String.eqb path "" then "."
  else
    let initial_slashes :=
      if Str.startswith path "/" then
        if Str.startswith path "//" && negb (Str.startswith path "///")
        then 2%nat else 1%nat
      else 0%nat in
    let comps := norm_comps initial_slashes (Str.split "/" path) [] in
    let path' :=
      match initial_slashes with
      | 0%nat => join_with "/" comps
      | 1%nat => "/" +:+ join_with "/" comps
      | _ => "//" +:+ join_with "/" comps
      end in
    if String.eqb path' "" then "." else path'.

(** [os.path.abspath(path)] in a process whose working directory is
    [cwd] *)
Definition abspath (cwd path : string) : string :=
  normpath (if Str.startswith path "/" then path else join cwd path).

(** [path] is the directory [dir] or lies below it *)
Definition is_under (dir path : string) : bool :=
  String.eqb path dir
  || Str.startswith path (if Str.endswith dir "/" then dir else dir +:+ "/").

(** the directories above [p], the nearest first *)
Fixpoint parents (fuel : nat) (p : string) : list string :=
  match fuel with
  | O => []
  | S fuel' =>
      let up := dirname p in
      if String.eqb up p || String.eqb up "" then []
      else up :: parents fuel' up
  end.

End Path.

(** ** Exceptions *)

Inductive exn_class :=
| TimeoutException      (* selenium.common.exceptions *)
| WebDriverException    (* selenium, other than a timeout *)
| TimeoutError          (* built-in, raised by the download wait *)
| RuntimeError          (* built-in; PyMuPDF's errors derive from it *)
| ValueError            (* built-in, raised by urllib.parse *)
| FileNotFoundError     (* built-in, subclasses of OSError *)
| FileExistsError
| NotADirectoryError
| IsADirectoryError
| ShutilError           (* shutil.Error *)
| OtherException.       (* any other subclass of Exception *)

Record exn := Exn { exn_class_of : exn_class; exn_msg : string }.

#[global] Instance exn_class_eq_dec : EqDecision exn_class.
Proof. solve_decision. Defined.

(** the [except] clauses of the program *)
Definition is_TimeoutException (e : exn) : bool :=
  bool_decide (exn_class_of e = TimeoutException).
Definition is_RuntimeError (e : exn) : bool :=
  bool_decide (exn_class_of e = RuntimeError).
Definition is_Exception (e : exn) : bool := true.

(** ** Collaborators

    The libraries the program drives.  Their answers are inputs of the
    model: every theorem below holds whatever they answer. *)

(** a tag of the parsed document: its name and its attribute dict *)
Record tag := Tag { tag_name : string; tag_attrs : gmap string string }.

(** the two browser sessions of a run *)
Inductive driver := HtmlDriver | DownloadDriver.

#[global] Instance driver_eq_dec : EqDecision driver.
Proof. solve_decision. Defined.

Record Env := {
  (** [BeautifulSoup(markup, "html.parser")]: the tags in document order *)
  soup_tags : string -> list tag;
  (** [validators.url]: truthy or not *)
  validators_url : string -> bool;
  (** [urllib.parse.urlparse(url).path], or the [ValueError] it raises *)
  urlparse_path : string -> exn + string;
  (** [fitz.open] on the bytes of a file: the page count of the
      document, or the exception raised *)
  fitz_document : string -> exn + nat;
  (** [driver.get(url)]: the exception raised, if any *)
  driver_get_raises : driver -> string -> option exn;
  (** [driver.refresh()] after loading [url] *)
  driver_refresh_raises : driver -> string -> option exn;
  (** [driver.page_source] after loading [url] *)
  driver_page_source : driver -> string -> string;
  (** Python's Unicode tables and UTF-8 codec, asked about text that is
      not pure ASCII only: [s.lower()], [any(c.isupper() for c in s)]
      and [b.decode("utf-8", errors="ignore")] *)
  unicode_lower : string -> string;
  unicode_any_isupper : string -> bool;
  utf8_decode_ignore : string -> string;
}.

(** ** The world outside the program *)

(** calls made to the collaborators, in the order they are made *)
Inductive call :=
| Launch (d : driver)
| Get (d : driver) (url : string)
| Refresh (d : driver)
| Quit (d : driver)
| ValidateUrl (given_url : string)
| FitzOpen (file_path : string).

#[global] Instance call_eq_dec : EqDecision call.
Proof. solve_decision. Defined.

(** One reading of [time.time()], in nanoseconds, together with the
    content (name to bytes) that the browser's download directory has
    at that instant: downloads complete, and files come and go, while
    the program waits. *)
Record tick := Tick { reading : Z; dir_now : gmap string string }.

Record world := World {
  (** working directory of the process, an absolute path *)
  cwd : string;
  (** the directories (absolute, normalised paths) with the regular
      files they hold, entry name to content; a directory exists when
      it is a key, with or without files, or lies above a key *)
  fs : gmap string (gmap string string);
  (** where the running download browser writes, once configured *)
  download_dir : option string;
  (** what the clock will read; when the script is used up the run is
      not determined any further *)
  clock : list tick;
  (** lines printed *)
  stdout : list string;
  (** calls made to the collaborators *)
  calls : list call;
}.

Definition set_fs (f : gmap string (gmap string string)) (w : world) : world :=
  World (cwd w) f (download_dir w) (clock w) (stdout w) (calls w).
Definition set_download_dir (d : option string) (w : world) : world :=
  World (cwd w) (fs w) d (clock w) (stdout w) (calls w).
Definition set_clock (c : list tick) (w : world) : world :=
  World (cwd w) (fs w) (download_dir w) c (stdout w) (calls w).
Definition add_stdout (line : string) (w : world) : world :=
  World (cwd w) (fs w) (download_dir w) (clock w) (stdout w ++ [line]) (calls w).
Definition add_call (c : call) (w : world) : world :=
  World (cwd w) (fs w) (download_dir w) (clock w) (stdout w) (calls w ++ [c]).

(** the regular files of a directory *)
Definition dir_files (w : world) (d : string) : gmap string string :=
  default ∅ (fs w !! d).

(** the regular file a path names *)
Definition file_at (w : world) (path : string) : option string :=
  let p := Path.abspath (cwd w) path in
  dir_files w (Path.dirname p) !! Path.basename p.

(** ** A state and exception monad *)

Inductive outcome (A : Type) :=
| Ret (a : A)      (* normal completion *)
| Exc (e : exn)    (* an exception propagates *)
| Hang.            (* the clock script is used up *)
Arguments Ret {A} a.
Arguments Exc {A} e.
Arguments Hang {A}.

Definition M (A : Type) : Type := world -> outcome A * world.

Definition ret {A} (a : A) : M A := fun w => (Ret a, w).
Definition raise {A} (e : exn) : M A := fun w => (Exc e, w).
Definition hang {A} : M A := fun w => (Hang, w).

Definition bind {A B} (m : M A) (k : A -> M B) : M B :=
  fun w =>
    match m w with
    | (Ret a, w') => k a w'
    | (Exc e, w') => (Exc e, w')
    | (Hang, w') => (Hang, w')
    end.

Declare Scope prog_scope.
Delimit Scope prog_scope with prog.
Notation "x ← m ; k" := (bind m (fun x => k))
  (at level 20, m at level 100, k at level 200, only parsing) : prog_scope.
Notation "m ;; k" := (bind m (fun _ => k))
  (at level 100, k at level 200, only parsing, right associativity) : prog_scope.
Local Open Scope prog_scope.

(** [try: body except C as e: handler e], where [catches] tells the
    exceptions of class [C] *)
Definition try_except {A} (catches : exn -> bool) (body : M A)
    (handler : exn -> M A) : M A :=
  fun w =>
    match body w with
    | (Exc e, w') => if catches e then handler e w' else (Exc e, w')
    | r => r
    end.

(** [try: body finally: cleanup] *)
Definition try_finally {A} (body : M A) (cleanup : M unit) : M A :=
  fun w =>
    match body w with
    | (Hang, w') => (Hang, w')
    | (r, w') =>
        match cleanup w' with
        | (Ret _, w'') => (r, w'')
        | (Exc e, w'') => (Exc e, w'')
        | (Hang, w'') => (Hang, w'')
        end
    end.

(** [for x in xs: body x] *)
Fixpoint for_each {A} (xs : list A) (body : A -> M unit) : M unit :=
  match xs with
  | [] => ret tt
  | x :: xs' => body x;; for_each xs' body
  end.

Definition when (b : bool) (m : M unit) : M unit := if b then m else ret tt.

(** a pure computation that may raise *)
Definition lift {A} (r : exn + A) : M A :=
  match r with inl e => raise e | inr a => ret a end.

Definition print (line : string) : M unit := fun w => (Ret tt, add_stdout line w).
Definition log_call (c : call) : M unit := fun w => (Ret tt, add_call c w).

(** ** Operating-system primitives *)

Definition write_file (path content : string) (w : world) : world :=
  let p := Path.abspath (cwd w) path in
  let d := Path.dirname p in
  set_fs (<[d := <[Path.basename p := content]> (dir_files w d)]> (fs w)) w.

Definition delete_file (path : string) (w : world) : world :=
  let p := Path.abspath (cwd w) path in
  let d := Path.dirname p in
  set_fs (<[d := delete (Path.basename p) (dir_files w d)]> (fs w)) w.

(** [os.path.abspath] *)
Definition os_path_abspath (path : string) : M string :=
  fun w => (Ret (Path.abspath (cwd w) path), w).

(** [os.path.isfile] *)
Definition os_path_isfile (path : string) : M bool :=
  fun w => (Ret (bool_decide (is_Some (file_at w path))), w).

(** the directories that exist as keys of [fs] *)
Definition dirs (w : world) : list string := (map_to_list (fs w)).*1.

(** [os.path.isdir]: the path is such a directory or lies above one, so
    an empty directory and one that holds sub-directories only are
    directories too *)
Definition is_dir (w : world) (path : string) : bool :=
  List.existsb (Path.is_under (Path.abspath (cwd w) path)) (dirs w).

(** [os.path.exists] *)
Definition path_exists (w : world) (path : string) : bool :=
  bool_decide (is_Some (file_at w path)) || is_dir w path.

(** the text of an [OSError] *)
Definition no_such_file (path : string) : exn :=
  Exn FileNotFoundError ("[Errno 2] No such file or directory: '" +:+ path +:+ "'").
Definition is_a_directory (path : string) : exn :=
  Exn IsADirectoryError ("[Errno 21] Is a directory: '" +:+ path +:+ "'").
Definition not_a_directory (path : string) : exn :=
  Exn NotADirectoryError ("[Errno 20] Not a directory: '" +:+ path +:+ "'").
Definition file_exists (path : string) : exn :=
  Exn FileExistsError ("[Errno 17] File exists: '" +:+ path +:+ "'").

(** [os.remove] *)
Definition os_remove (path : string) : M unit :=
  fun w =>
    match file_at w path with
    | Some _ => (Ret tt, delete_file path w)
    | None =>
        (Exc (if is_dir w path then is_a_directory path else no_such_file path), w)
    end.

(** [open(path, "r", encoding="utf-8", errors="ignore").read()]: the
    bytes of the file are decoded by [decode], which drops what is no
    UTF-8, and the line ends of the text are translated *)
Definition open_read (decode : string -> string) (path : string) : M string :=
  fun w =>
    match file_at w path with
    | Some content => (Ret (Str.universal_newlines (decode content)), w)
    | None =>
        (Exc (if is_dir w path then is_a_directory path else no_such_file path), w)
    end.

(** [open(path, "a").write(content)]: the file is created when absent *)
Definition open_append (path content : string) : M unit :=
  fun w => (Ret tt, write_file path (default "" (file_at w path) +:+ content) w).

(** [os.listdir]: the names of the regular files of a directory (the
    names of its sub-directories, which are keys of their own, are left
    out); a path that is no directory raises *)
Definition os_listdir (path : string) : M (list string) :=
  fun w =>
    if is_dir w path then
      (Ret (map_to_list (dir_files w (Path.abspath (cwd w) path))).*1, w)
    else if bool_decide (is_Some (file_at w path)) then
      (Exc (not_a_directory path), w)
    else (Exc (no_such_file path), w).

(** [os.makedirs(name, exist_ok=True)]: nothing to do when the directory
    exists; [FileExistsError] when the path is a regular file and
    [NotADirectoryError] when a path above it is one; otherwise the
    directory appears, empty, and with it the missing ones above it *)
Definition os_makedirs (name : string) : M unit :=
  fun w =>
    let p := Path.abspath (cwd w) name in
    if is_dir w name then (Ret tt, w)
    else if bool_decide (is_Some (file_at w name)) then
      (Exc (file_exists name), w)
    else if List.existsb (fun q => bool_decide (is_Some (file_at w q)))
              (Path.parents (String.length p) p) then
      (Exc (not_a_directory name), w)
    else (Ret tt, set_fs (<[p := ∅]> (fs w)) w).

(** [shutil.move(src, dst)] for a regular file [src]: into [dst] when it
    is a directory, unless the name is taken there; onto [dst]
    otherwise, replacing a regular file that stands there *)
Definition shutil_move (src dst : string) : M unit :=
  fun w =>
    match file_at w src with
    | None => (Exc (no_such_file src), w)
    | Some content =>
        if is_dir w dst then
          let real_dst := Path.join dst (Path.basename (Path.rstrip_slash src)) in
          if path_exists w real_dst then
            (Exc (Exn ShutilError
                    ("Destination path '" +:+ real_dst +:+ "' already exists")), w)
          else (Ret tt, write_file real_dst content (delete_file src w))
        else (Ret tt, write_file dst content (delete_file src w))
    end.

(** [os.walk(top)]: one [(root, files)] pair per directory below [top];
    the list of sub-directory names, which the program ignores, is left
    out *)
Definition os_walk (top : string) : M (list (string * list string)) :=
  fun w =>
    let t := Path.abspath (cwd w) top in
    let below (d : string) : bool :=
      String.eqb d t
      || Str.startswith d (if Str.endswith t "/" then t else t +:+ "/") in
    let root_of (d : string) : string :=
      top +:+ substring (String.length t) (String.length d - String.length t) d in
    (Ret (map (fun '(d, entries) => (root_of d, (map_to_list entries).*1))
            (List.filter (fun '(d, _) => below d) (map_to_list (fs w)))), w).

(** [time.time()]: the next reading of the clock; by then the download
    directory has the content the tick tells *)
Definition time_time : M Z :=
  fun w =>
    match clock w with
    | [] => (Hang, w)
    | tk :: rest =>
        let w' := set_clock rest w in
        (Ret (reading tk),
         match download_dir w with
         | Some d => set_fs (<[d := dir_now tk]> (fs w')) w'
         | None => w'
         end)
    end.

Definition seconds (n : Z) : Z := (n * 1000000000)%Z.

(** ** The program, function by function *)

Section Program.

Variable E : Env.

(** [s.lower()]: written out on ASCII text, Python's Unicode tables
    otherwise *)
Definition py_lower (s : string) : string :=
  if Str.is_ascii s then Str.lower s else unicode_lower E s.

(** [b.decode("utf-8", errors="ignore")]: ASCII bytes are their own
    text, Python's codec decides otherwise *)
Definition utf8_ignore (content : string) : string :=
  if Str.is_ascii content then content else utf8_decode_ignore E content.

(** Reads and returns the content of a file at the specified path *)
Definition read_a_file (system_path : string) : M string :=
  open_read utf8_ignore system_path.

(** Checks if a file exists at the given system path *)
Definition check_file_exists (system_path : string) : M bool :=
  os_path_isfile system_path.

(** [soup.find_all(name="a", href=True)] *)
Definition find_all_a_href (html : string) : list tag :=
  List.filter
    (fun t => String.eqb (tag_name t) "a"
              && bool_decide (is_Some (tag_attrs t !! "href")))
    (soup_tags E html).

(** the body of the loop of [parse_html].  Lower-casing is followed by a
    test of the last four characters against [.pdf]; no character
    outside ASCII has one of [.], [p], [d], [f] in its lower case, so
    the ASCII letters decide and [Str.lower] is exact here *)
Definition parse_html_step (pdf_links : list string) (a : tag) : list string :=
  match tag_attrs a !! "href" with
  | Some href =>
      let decoded_href := unquote href in
      if Str.endswith (Str.lower decoded_href) ".pdf"
      then pdf_links ++ [href]
      else pdf_links
  | None => pdf_links   (* [a["href"]] cannot fail: [href=True] *)
  end.

(** Parses the HTML and finds all links ending in .pdf *)
Definition parse_html (html : string) : list string :=
  fold_left parse_html_step (find_all_a_href html) [].

(** Removes duplicate items from a list: [list(set(provided_slice))] *)
Definition remove_duplicates_from_slice (provided_slice : list string)
  : list string :=
  elements (list_to_set provided_slice : gset string).

(** the character class [[a-z0-9._-]] *)
Definition filename_char (c : ascii) : bool :=
  Str.is_lower c || Str.is_digit c
  || Ascii.eqb c "." || Ascii.eqb c "_" || Ascii.eqb c "-".

(** Extracts and returns the cleaned filename from a URL *)
Definition url_to_filename (url : string) : exn + string :=
  match urlparse_path E url with
  | inl e => inl e
  | inr path =>
      let filename := py_lower (Str.last (Str.split "/" path)) in
      let cleaned_filename :=
        Str.filter filename_char filename in   (* re.sub(r"[^a-z0-9._-]", "") *)
      inr (py_lower cleaned_filename)
  end.

(** [driver.get(url)] *)
Definition driver_get (d : driver) (url : string) : M unit :=
  log_call (Get d url);;
  match driver_get_raises E d url with
  | Some e => raise e
  | None => ret tt
  end.

(** [driver.refresh()] on the page [url] *)
Definition driver_refresh (d : driver) (url : string) : M unit :=
  log_call (Refresh d);;
  match driver_refresh_raises E d url with
  | Some e => raise e
  | None => ret tt
  end.

(** [driver.quit()]; the download browser stops writing *)
Definition driver_quit (d : driver) : M unit :=
  log_call (Quit d);;
  match d with
  | DownloadDriver => (fun w => (Ret tt, set_download_dir None w)) : M unit
  | HtmlDriver => ret tt
  end.

(** Create a Chrome driver for fetching HTML *)
Definition create_html_driver : M driver :=
  log_call (Launch HtmlDriver);; ret HtmlDriver.

(** Appends content to a file *)
Definition append_write_to_file (system_path content : string) : M unit :=
  open_append system_path content.

(** Uses Selenium to save HTML content of a page; the page-load timeout
    of 30 seconds set first shows in the model as a [driver.get] or
    [driver.refresh] that raises [TimeoutException] *)
Definition save_html_with_selenium (url output_file : string) (d : driver)
  : M unit :=
  try_except is_TimeoutException
    (driver_get d url;;
     driver_refresh d url;;
     let html := driver_page_source E d url in
     append_write_to_file output_file html;;
     print ("Page " +:+ url +:+ " HTML content saved to " +:+ output_file))
    (fun _ =>
       print ("Timeout: Page " +:+ url +:+ " did not load within 30 seconds.")).

(** Sets up a Chrome driver with download preferences *)
Definition initialize_web_driver (download_folder : string) : M driver :=
  log_call (Launch DownloadDriver);;
  ((fun w => (Ret DownloadDriver,
              set_download_dir (Some (Path.abspath (cwd w) download_folder)) w))
   : M driver).

(** [f.lower().endswith(".pdf")]; as in [parse_html_step], the ASCII
    letters decide *)
Definition is_pdf_name (f : string) : bool :=
  Str.endswith (Str.lower f) ".pdf".

(** the [while] loop of [wait_for_pdf_download]; every turn reads the
    clock once, so [fuel] above the length of the clock script is
    never used up *)
Fixpoint wait_loop (fuel : nat) (download_folder : string)
    (files_before_download : gset string) (deadline : Z) : M string :=
  match fuel with
  | O => hang
  | S fuel' =>
      now ← time_time;
      if (now <? deadline)%Z then
        listing ← os_listdir download_folder;
        let current_files : gset string := list_to_set listing in
        let new_pdf_files :=
          List.filter is_pdf_name
            (elements (current_files ∖ files_before_download)) in
        match new_pdf_files with
        | f :: _ => ret (Path.join download_folder f)
        | [] => wait_loop fuel' download_folder files_before_download deadline
        end
      else raise (Exn TimeoutError "PDF download timed out.")
  end.

(** Waits for PDF file to appear in directory *)
Definition wait_for_pdf_download (download_folder : string)
    (files_before_download : gset string) (timeout_seconds : Z) : M string :=
  now ← time_time;
  let deadline := (now + seconds timeout_seconds)%Z in
  ((fun w =>
      wait_loop (S (length (clock w))) download_folder files_before_download
        deadline w) : M string).

(** Deletes a file from the filesystem *)
Definition remove_system_file (system_path : string) : M unit :=
  os_remove system_path.

(** Recursively finds files with given extension *)
Definition walk_directory_and_extract_given_file_extension
    (system_path extension : string) : M (list string) :=
  walked ← os_walk system_path;
  ((fun w =>
      (Ret (fold_left
              (fun matched_files '(root, files) =>
                 fold_left
                   (fun matched file =>
                      if Str.endswith file extension
                      then (matched
                            ++ [Path.abspath (cwd w) (Path.join root file)])%list
                      else matched)
                   files matched_files)
              walked []), w)) : M (list string)).

(** [fitz.open(file_path)] followed by [doc.page_count] *)
Definition fitz_open_page_count (file_path : string) : M nat :=
  log_call (FitzOpen file_path);;
  ((fun w =>
      match file_at w file_path with
      | None =>
          (Exc (Exn RuntimeError ("no such file: '" +:+ file_path +:+ "'")), w)
      | Some content =>
          match fitz_document E content with
          | inl e => (Exc e, w)
          | inr page_count => (Ret page_count, w)
          end
      end) : M nat).

(** Validates PDF integrity *)
Definition validate_pdf_file (file_path : string) : M bool :=
  try_except is_RuntimeError
    (page_count ← fitz_open_page_count file_path;
     if (page_count =? 0)%nat then
       print ("'" +:+ file_path +:+ "' is corrupt or invalid: No pages");;
       ret false
     else ret true)
    (fun e =>
       print ("'" +:+ file_path +:+ "' is corrupt or invalid: " +:+ exn_msg e);;
       ret false).

(** Extracts filename with extension from path *)
Definition get_filename_and_extension (path : string) : string :=
  Path.basename path.

(** Checks for at least one uppercase character: [A] to [Z] in ASCII
    text, the characters that Unicode counts as upper-case otherwise *)
Definition check_upper_case_letter (content : string) : bool :=
  if Str.is_ascii content then Str.existsb Str.is_upper content
  else unicode_any_isupper E content.

(** the [try] block of [download_single_pdf] *)
Definition download_attempt (url target_file_path output_folder : string)
    (d : driver) : M unit :=
  print ("Starting download from: " +:+ url);;
  listing ← os_listdir output_folder;
  let files_before : gset string := list_to_set listing in
  driver_get d url;;
  downloaded_pdf_path ←
    wait_for_pdf_download output_folder files_before 3;
  shutil_move downloaded_pdf_path target_file_path;;
  print ("Download complete: " +:+ target_file_path).

(** Downloads a PDF using a Selenium driver *)
Definition download_single_pdf (url filename output_folder : string)
    (d : driver) : M unit :=
  os_makedirs output_folder;;
  let target_file_path := Path.join output_folder filename in
  already ← check_file_exists target_file_path;
  if already
  then print ("File already exists: " +:+ target_file_path)
  else
    try_except is_Exception
      (download_attempt url target_file_path output_folder d)
      (fun e => print ("Error downloading PDF: " +:+ exn_msg e)).

(** Validate a given url *)
Definition validate_url (given_url : string) : M bool :=
  log_call (ValidateUrl given_url);;
  ret (validators_url E given_url).

Definition html_file_path : string := "biokleen.com.html".
Definition page_url : string := "https://www.biokleen.com/sds".
Definition site_origin : string := "https://www.biokleen.com".

(** first part of [main]: the snapshot of the page *)
Definition fetch_phase : M unit :=
  present ← check_file_exists html_file_path;
  when present (remove_system_file html_file_path);;
  present ← check_file_exists html_file_path;
  when (negb present)
    (d ← create_html_driver;
     try_finally
       (save_html_with_selenium page_url html_file_path d;;
        print ("File " +:+ html_file_path +:+ " has been created."))
       (driver_quit d)).

(** the URL that [main] downloads for an extracted link *)
Definition fix_relative_url (pdf_link : string) : string :=
  if validators_url E pdf_link then pdf_link else site_origin +:+ pdf_link.

(** the body of the download loop of [main] *)
Definition process_link (output_dir : string) (d : driver) (pdf_link : string)
  : M unit :=
  valid ← validate_url pdf_link;
  pdf_link ←
    (if negb valid then
       let pdf_link := site_origin +:+ pdf_link in
       print ("Invalid URL: " +:+ pdf_link);; ret pdf_link
     else ret pdf_link);
  filename ← lift (url_to_filename pdf_link);
  download_single_pdf pdf_link filename output_dir d;;
  print "All PDF links have been processed.".

(** second part of [main]: extraction and downloads *)
Definition download_phase : M unit :=
  present ← check_file_exists html_file_path;
  when present
    (html_content ← read_a_file html_file_path;
     let pdf_links := parse_html html_content in
     let pdf_links := remove_duplicates_from_slice pdf_links in
     output_dir ← os_path_abspath "PDFs";
     d ← initialize_web_driver output_dir;
     try_finally
       (for_each pdf_links (process_link output_dir d))
       (driver_quit d)).

(** the body of the validation loop of [main] *)
Definition sweep_file (pdf_file : string) : M unit :=
  valid ← validate_pdf_file pdf_file;
  when (negb valid) (remove_system_file pdf_file);;
  when (check_upper_case_letter (get_filename_and_extension pdf_file))
    (print pdf_file).

(** third part of [main]: the validation sweep *)
Definition sweep_phase : M unit :=
  files ← walk_directory_and_extract_given_file_extension "./PDFs" ".pdf";
  for_each files sweep_file.

Definition main : M unit :=
  fetch_phase;; download_phase;; sweep_phase.

End Program.

(** ** A concrete environment

    Stand-ins for the collaborators, used to run the program on concrete
    inputs.  [Demo.py_urlparse_path] follows [urllib.parse.urlsplit] and
    [urlparse] of CPython 3.11 on ASCII text, except that a netloc with
    both brackets is accepted without looking at the host inside.
    [Demo.http_url] and [Demo.pdf_document] are simple stand-ins for the
    URL validator and the PDF parser, and [Demo.page_tags] knows the
    pages of the examples.  The stand-ins for the Unicode tables know
    the letters of the Latin-1 supplement, which UTF-8 writes in two
    bytes. *)

Module Demo.

Definition control_or_space (c : ascii) : bool := (nat_of_ascii c <=? 32)%nat.

Fixpoint lstrip (p : ascii -> bool) (s : string) : string :=
  match s with
  | String c r => if p c then lstrip p r else s
  | EmptyString => EmptyString
  end.

(** the text before the first character that satisfies [p], and the
    text from that character on *)
Fixpoint break (p : ascii -> bool) (s : string) : string * string :=
  match s with
  | EmptyString => (EmptyString, EmptyString)
  | String c r =>
      if p c then (EmptyString, s)
      else let '(a, b) := break p r in (String c a, b)
  end.

Definition is_alpha (c : ascii) : bool := Str.is_upper c || Str.is_lower c.

(** the second byte of a capital letter of the Latin-1 supplement, whose
    first byte is [lead]: the letters from U+00C0 to U+00DE but the
    multiplication sign *)
Definition lead : ascii := ascii_of_nat 195.
Definition latin1_capital (c : ascii) : bool :=
  let n := nat_of_ascii c in
  (128 <=? n)%nat && (n <=? 158)%nat && negb (n =? 151)%nat.

Fixpoint any_isupper (s : string) : bool :=
  match s with
  | EmptyString => false
  | String c r =>
      Str.is_upper c
      || match r with
         | String c' _ => Ascii.eqb c lead && latin1_capital c'
         | EmptyString => false
         end
      || any_isupper r
  end.

Fixpoint lower (s : string) : string :=
  match s with
  | EmptyString => EmptyString
  | String c r =>
      match r with
      | String c' r' =>
          if Ascii.eqb c lead && latin1_capital c'
          then String c (String (ascii_of_nat (nat_of_ascii c' + 32)) (lower r'))
          else String (Str.lower_char c) (lower r)
      | EmptyString => String (Str.lower_char c) EmptyString
      end
  end.

Definition continuation (c : ascii) : bool :=
  let n := nat_of_ascii c in (128 <=? n)%nat && (n <=? 191)%nat.

(** the first two bytes of a sequence of three, and of four *)
Definition starts_three (b0 b1 : ascii) : bool :=
  let n0 := nat_of_ascii b0 in
  let n1 := nat_of_ascii b1 in
  ((n0 =? 224)%nat && (160 <=? n1)%nat && (n1 <=? 191)%nat)
  || ((((225 <=? n0)%nat && (n0 <=? 236)%nat)
       || ((238 <=? n0)%nat && (n0 <=? 239)%nat)) && continuation b1)
  || ((n0 =? 237)%nat && (128 <=? n1)%nat && (n1 <=? 159)%nat).
Definition starts_four (b0 b1 : ascii) : bool :=
  let n0 := nat_of_ascii b0 in
  let n1 := nat_of_ascii b1 in
  ((n0 =? 240)%nat && (144 <=? n1)%nat && (n1 <=? 191)%nat)
  || ((241 <=? n0)%nat && (n0 <=? 243)%nat && continuation b1)
  || ((n0 =? 244)%nat && (128 <=? n1)%nat && (n1 <=? 143)%nat).

(** the well-formed sequences of the bytes; a byte that starts none is
    dropped *)
Fixpoint decode_ignore (s : string) : string :=
  match s with
  | EmptyString => EmptyString
  | String b0 r0 =>
      let n0 := nat_of_ascii b0 in
      if (n0 <? 128)%nat then String b0 (decode_ignore r0)
      else
        match r0 with
        | EmptyString => EmptyString
        | String b1 r1 =>
            if (194 <=? n0)%nat && (n0 <=? 223)%nat && continuation b1
            then String b0 (String b1 (decode_ignore r1))
            else
              match r1 with
              | EmptyString => decode_ignore r0
              | String b2 r2 =>
                  if starts_three b0 b1 && continuation b2
                  then String b0 (String b1 (String b2 (decode_ignore r2)))
                  else
                    match r2 with
                    | EmptyString => decode_ignore r0
                    | String b3 r3 =>
                        if starts_four b0 b1 && continuation b2 && continuation b3
                        then String b0 (String b1 (String b2 (String b3
                               (decode_ignore r3))))
                        else decode_ignore r0
                    end
              end
        end
  end.

Definition scheme_char (c : ascii) : bool :=
  is_alpha c || Str.is_digit c
  || Ascii.eqb c "+" || Ascii.eqb c "-" || Ascii.eqb c ".".

Definition uses_params : list string :=
  [""; "ftp"; "hdl"; "prospero"; "http"; "imap"; "https"; "shttp"; "rtsp";
   "rtspu"; "sip"; "sips"; "mms"; "sftp"; "tel"].

Definition is_one_of (cs : string) (c : ascii) : bool := Str.contains c cs.

(** [_splitparams(url)[0]]: the parameters after the first [;] of the
    last path segment are cut off *)
Definition without_params (url : string) : string :=
  let segments := Str.split "/" url in
  let last_segment := fst (break (Ascii.eqb ";") (Str.last segments)) in
  Path.join_with "/" (removelast segments ++ [last_segment]).

Definition py_urlparse_path (url : string) : exn + string :=
  let url := lstrip control_or_space url in
  let url := Str.filter (fun c => negb (is_one_of (String (ascii_of_nat 9)
               (String (ascii_of_nat 13) (String (ascii_of_nat 10) ""))) c)) url in
  let '(scheme, url) :=
    match break (Ascii.eqb ":") url with
    | (String c0 _ as candidate, String _ rest) =>
        if is_alpha c0 && Str.forallb scheme_char candidate
        then (Str.lower candidate, rest) else ("", url)
    | _ => ("", url)
    end in
  let '(netloc, url) :=
    match url with
    | String "/" (String "/" after) => break (is_one_of "/?#") after
    | _ => ("", url)
    end in
  if xorb (Str.contains "[" netloc) (Str.contains "]" netloc)
  then inl (Exn ValueError "Invalid IPv6 URL")
  else
    let url := fst (break (Ascii.eqb "#") url) in
    let url := fst (break (Ascii.eqb "?") url) in
    inr (if bool_decide (scheme ∈ uses_params) && Str.contains ";" url
         then without_params url else url).

(** accepts the text that starts with [http://] or [https://] *)
Definition http_url (s : string) : bool :=
  Str.startswith s "http://" || Str.startswith s "https://".

(** the product page of the examples *)
Definition page_html : string :=
  "<a href='/sds/sheet1.PDF'>1</a><a name='top'>2</a><a href='/sds/'>3</a>".

Definition page_tags (html : string) : list tag :=
  if String.eqb html page_html then
    [ Tag "a" {[ "href" := "/sds/sheet1.PDF" ]};
      Tag "a" {[ "name" := "top" ]};
      Tag "a" {[ "href" := "/sds/" ]} ]
  else if String.eqb html "<a href='[x.pdf'>1</a>" then
    [ Tag "a" {[ "href" := "[x.pdf" ]} ]
  else [].

(** a document of one page when the bytes start with [%PDF-1], of no
    page when they are [%PDF-0], a structural error otherwise *)
Definition pdf_document (content : string) : exn + nat :=
  if Str.startswith content "%PDF-1" then inr 1%nat
  else if String.eqb content "%PDF-0" then inr 0%nat
  else inl (Exn RuntimeError "Failed to open file").

Definition env : Env := {|
  soup_tags := page_tags;
  validators_url := http_url;
  urlparse_path := py_urlparse_path;
  fitz_document := pdf_document;
  driver_get_raises := fun _ url =>
    if Str.endswith url "/broken.pdf"
    then Some (Exn WebDriverException "net::ERR_CONNECTION_RESET") else None;
  driver_refresh_raises := fun _ _ => None;
  driver_page_source := fun _ _ => page_html;
  unicode_lower := lower;
  unicode_any_isupper := any_isupper;
  utf8_decode_ignore := decode_ignore;
|}.

(** a world with the given files and clock script *)
Definition world_of (files : gmap string (gmap string string))
    (script : list tick) : world :=
  {| cwd := "/srv/app"; fs := files; download_dir := None; clock := script;
     stdout := []; calls := [] |}.

(** the environment in which the product page has another source *)
Definition env_with_page (html : string) : Env := {|
  soup_tags := page_tags;
  validators_url := http_url;
  urlparse_path := py_urlparse_path;
  fitz_document := pdf_document;
  driver_get_raises := driver_get_raises env;
  driver_refresh_raises := driver_refresh_raises env;
  driver_page_source := fun _ _ => html;
  unicode_lower := lower;
  unicode_any_isupper := any_isupper;
  utf8_decode_ignore := decode_ignore;
|}.

(** a page whose only link cannot be parsed as a URL *)
Definition bad_link_page : string := "<a href='[x.pdf'>1</a>".

(** a run that starts with a snapshot of an earlier fetch *)
Definition cached : world :=
  world_of {[ "/srv/app" := {[ "biokleen.com.html" := "<a href='/old.pdf'>0</a>" ]} ]} [].

(** a download directory that holds a file that is no PDF document *)
Definition swept : world :=
  world_of {[ "/srv/app/PDFs" := {[ "Bad.pdf" := "junk" ]} ]} [].

(** a download directory that holds the sheet of the product page *)
Definition populated : world :=
  world_of {[ "/srv/app/PDFs" := {[ "sheet1.pdf" := "%PDF-1.4" ]} ]} [].

(** the browser is downloading: after one second a partial file shows,
    after two seconds the document *)
Definition downloading : world :=
  {| cwd := "/srv/app"; fs := ∅; download_dir := Some "/srv/app/PDFs";
     clock := [ Tick 0 ∅;
                Tick 1000000000 {[ "doc.pdf.crdownload" := "%PD" ]};
                Tick 2000000000 {[ "doc.pdf" := "%PDF-1.4" ]} ];
     stdout := []; calls := [] |}.

(** a download directory whose only file has an upper-case extension *)
Definition shouting : world :=
  world_of {[ "/srv/app/PDFs" := {[ "SHEET.PDF" := "junk" ]} ]} [].

(** the environment in which the PDF parser refuses the bytes [locked]
    with an exception that is no [RuntimeError] *)
Definition strict_env : Env := {|
  soup_tags := page_tags;
  validators_url := http_url;
  urlparse_path := py_urlparse_path;
  fitz_document := fun content =>
    if String.eqb content "locked"
    then inl (Exn ValueError "document closed or encrypted")
    else pdf_document content;
  driver_get_raises := driver_get_raises env;
  driver_refresh_raises := driver_refresh_raises env;
  driver_page_source := driver_page_source env;
  unicode_lower := lower;
  unicode_any_isupper := any_isupper;
  utf8_decode_ignore := decode_ignore;
|}.

(** the environment in which loading a page fails with [e] *)
Definition env_failing_with (e : exn) : Env := {|
  soup_tags := page_tags;
  validators_url := http_url;
  urlparse_path := py_urlparse_path;
  fitz_document := pdf_document;
  driver_get_raises := fun _ _ => Some e;
  driver_refresh_raises := fun _ _ => None;
  driver_page_source := fun _ _ => page_html;
  unicode_lower := lower;
  unicode_any_isupper := any_isupper;
  utf8_decode_ignore := decode_ignore;
|}.

(** a download directory with a locked file and a broken one *)
Definition guarded : world :=
  world_of {[ "/srv/app/PDFs" := {[ "a.pdf" := "locked"; "b.pdf" := "junk" ]} ]} [].

(** a download directory with two documents, one of them with an
    upper-case letter in its name *)
Definition tidy : world :=
  world_of {[ "/srv/app/PDFs" := {[ "Sheet.pdf" := "%PDF-1.7"; "sheet1.pdf" := "%PDF-1.4" ]} ]} [].

(** a later run: the folder holds the sheet of an earlier one, and after
    one second the browser has saved [doc.pdf] next to it *)
Definition revisited : world :=
  {| cwd := "/srv/app";
     fs := {[ "/srv/app/PDFs" := {[ "sheet1.pdf" := "%PDF-1.4" ]} ]};
     download_dir := Some "/srv/app/PDFs";
     clock := [ Tick 0 {[ "sheet1.pdf" := "%PDF-1.4" ]};
                Tick 1000000000
                  {[ "doc.pdf" := "%PDF-1.4"; "sheet1.pdf" := "%PDF-1.4" ]} ];
     stdout := []; calls := [] |}.

(** a regular file stands where the output folder is to be *)
Definition blocked : world :=
  {| cwd := "/srv/app"; fs := {[ "/srv/app" := {[ "PDFs" := "not a folder" ]} ]};
     download_dir := Some "/srv/app/PDFs";
     clock := [ Tick 0 ∅; Tick 4000000000 ∅ ];
     stdout := []; calls := [] |}.

(** a download directory with a document whose name starts with a
    capital letter outside ASCII, [É] in UTF-8 *)
Definition accented : world :=
  world_of {[ "/srv/app/PDFs" :=
                {[ String (ascii_of_nat 195) (String (ascii_of_nat 137) ".pdf")
                   := "%PDF-1.4" ]} ]} [].

(** nothing arrives during four seconds *)
Definition idle : world :=
  {| cwd := "/srv/app"; fs := ∅; download_dir := Some "/srv/app/PDFs";
     clock := [ Tick 0 ∅; Tick 4000000000 ∅ ];
     stdout := []; calls := [] |}.

End Demo.

(** ** Vocabulary of the statements *)

(** The pattern [^[a-z0-9._-]+$] as Python's [re] reads it: one or more
    characters of the class, then the end of the text or a final newline *)
Definition matches_filename_pattern (s : string) : bool :=
  let newline := String (ascii_of_nat 10) EmptyString in
  let body :=
    if Str.endswith s newline then substring 0 (String.length s - 1) s else s in
  negb (String.eqb body "") && Str.forallb filename_char body.

(** the anchors of the document, with or without an [href] *)
Definition anchors (E : Env) (html : string) : list tag :=
  List.filter (fun t => String.eqb (tag_name t) "a") (soup_tags E html).

(** an href whose percent-decoded form ends in [.pdf], in any case *)
Definition pdf_href (href : string) : bool :=
  Str.endswith (Str.lower (unquote href)) ".pdf".

(** The Link Extractor in the words of the specification: the hrefs of
    the anchors that have one, kept as written when their decoded form
    ends in [.pdf] *)
Definition link_extractor_spec (E : Env) (html : string) : list string :=
  List.filter pdf_href (omap (fun a => tag_attrs a !! "href") (anchors E html)).

(** a listing in which no new PDF shows *)
Definition quiet (before : gset string) (entries : gmap string string) : Prop :=
  forall f, f ∈ dom entries -> f ∉ before -> is_pdf_name f = false.

Definition new_pdf_files (before : gset string)
    (entries : gmap string string) : list string :=
  List.filter is_pdf_name (elements (dom entries ∖ before)).

(** the world after the clock has been read up to the tick [tk] *)
Definition at_tick (tk : tick) (post : list tick) (w : world) : world :=
  match download_dir w with
  | Some d => set_fs (<[d := dir_now tk]> (fs w)) (set_clock post w)
  | None => set_clock post w
  end.

(** the clock script reaches the deadline of a wait started now *)
Definition deadline_reached (timeout_seconds : Z) (script : list tick) : Prop :=
  match script with
  | [] => False
  | t0 :: polls =>
      Exists (fun p => (reading t0 + seconds timeout_seconds <= reading p)%Z) polls
  end.

(** what the monitor and the relocation leave alone *)
Definition same_log (w w' : world) : Prop :=
  calls w' = calls w /\ stdout w' = stdout w /\ cwd w' = cwd w.

(** the world in which the wait starts *)
Definition navigated (d : driver) (url : string) (w : world) : world :=
  add_call (Get d url) (add_stdout ("Starting download from: " +:+ url) w).

(** the snapshot of the download directory taken before the navigation *)
Definition files_before (output_folder : string) (w : world) : gset string :=
  list_to_set
    ((map_to_list (dir_files w (Path.abspath (cwd w) output_folder))).*1).

Definition failure_line (e : exn) : string :=
  "Error downloading PDF: " +:+ exn_msg e.

(** an exception raised inside the [try] block of [download_single_pdf]
    started in [w], where the output folder is in place: by the
    navigation, by the wait, or by the relocation of the file that the
    wait found *)
Definition attempt_raises (E : Env) (output_folder : string) (d : driver)
    (url filename : string) (w : world) (e : exn) : Prop :=
  driver_get_raises E d url = Some e
  \/ (driver_get_raises E d url = None
      /\ (fst (wait_for_pdf_download output_folder
                 (files_before output_folder w) 3 (navigated d url w)) = Exc e
          \/ exists downloaded_pdf_path w1,
               wait_for_pdf_download output_folder
                 (files_before output_folder w) 3 (navigated d url w)
               = (Ret downloaded_pdf_path, w1)
               /\ fst (shutil_move downloaded_pdf_path
                         (Path.join output_folder filename) w1) = Exc e)).

(** loading a page fails with [e]: [driver.get] raises it, or
    [driver.refresh] does after a [driver.get] that went through *)
Definition load_fails (E : Env) (d : driver) (url : string) (e : exn) : Prop :=
  driver_get_raises E d url = Some e
  \/ (driver_get_raises E d url = None /\ driver_refresh_raises E d url = Some e).

(** the world after the browser calls of a page load, up to the one that
    raises if any *)
Definition tried_load (E : Env) (d : driver) (url : string) (w : world) : world :=
  match driver_get_raises E d url with
  | Some _ => add_call (Get d url) w
  | None => add_call (Refresh d) (add_call (Get d url) w)
  end.

Definition timeout_line (url : string) : string :=
  "Timeout: Page " +:+ url +:+ " did not load within 30 seconds.".

Definition created_line : string :=
  "File " +:+ html_file_path +:+ " has been created.".

(** a file that opens as a document with at least one page *)
Definition valid_pdf (E : Env) (w : world) (pdf_file : string) : Prop :=
  exists content pages,
    file_at w pdf_file = Some content
    /\ fitz_document E content = inr (S pages).

(** a call to a browser or to the URL validator: any call but [fitz.open] *)
Definition before_sweep (c : call) : Prop :=
  match c with FitzOpen _ => False | _ => True end.

(** a call made for a link by the download loop *)
Definition link_call (d : driver) (c : call) : Prop :=
  match c with
  | ValidateUrl _ => True
  | Get d' _ => d' = d
  | _ => False
  end.

(** the links about which the URL validator was asked, in order *)
Definition validated_links (made : list call) : list string :=
  omap (fun c => match c with ValidateUrl s => Some s | _ => None end) made.

(** the text that [read_a_file] returns for a file that holds [content] *)
Definition text_of (E : Env) (content : string) : string :=
  Str.universal_newlines (utf8_ignore E content).

(** the world in which the download loop starts: the download browser is
    launched and writes into [PDFs] *)
Definition browsing (w : world) : world :=
  set_download_dir
    (Some (Path.abspath (cwd w) (Path.abspath (cwd w) "PDFs")))
    (add_call (Launch DownloadDriver) w).

(** the links that the download loop works on when the snapshot holds
    [content] *)
Definition links_of (E : Env) (content : string) : list string :=
  remove_duplicates_from_slice (parse_html E (text_of E content)).

(** the world once the snapshot of an earlier run is out of the way *)
Definition without_snapshot (w : world) : world :=
  match file_at w html_file_path with
  | Some _ => delete_file html_file_path w
  | None => w
  end.

(** the world after the validity test of a link *)
Definition validated (E : Env) (pdf_link : string) (w : world) : world :=
  if validators_url E pdf_link then add_call (ValidateUrl pdf_link) w
  else add_stdout ("Invalid URL: " +:+ site_origin +:+ pdf_link)
         (add_call (ValidateUrl pdf_link) w).

(** the target of a link is already in the download directory *)
Definition already_downloaded (E : Env) (output_dir : string)
    (w : world) (pdf_link : string) : Prop :=
  exists filename,
    url_to_filename E (fix_relative_url E pdf_link) = inr filename
    /\ is_Some (file_at w (Path.join output_dir filename)).

Definition no_pages_line (file_path : string) : string :=
  "'" +:+ file_path +:+ "' is corrupt or invalid: No pages".

Definition open_error_line (file_path : string) (e : exn) : string :=
  "'" +:+ file_path +:+ "' is corrupt or invalid: " +:+ exn_msg e.

(** the last step of the loop body: the report of an upper-case name *)
Definition reported (E : Env) (pdf_file : string) (w : world) : world :=
  if check_upper_case_letter E (get_filename_and_extension pdf_file)
  then add_stdout pdf_file w else w.

(** the document parser finds the bytes broken ([RuntimeError]) or finds
    no page in them *)
Definition corrupt (E : Env) (content : string) : Prop :=
  (exists e, fitz_document E content = inl e /\ is_RuntimeError e = true)
  \/ fitz_document E content = inr 0%nat.

(** The files that the walk is to collect, in the words of the
    specification: for every directory visited, the absolute paths of the
    entries whose name ends in the extension, compared as written *)
Definition collected (cwd_ extension : string)
    (walked : list (string * list string)) : list string :=
  flat_map
    (fun '(root, files) =>
       map (fun file => Path.abspath cwd_ (Path.join root file))
         (List.filter (fun file => Str.endswith file extension) files))
    walked.

(** a line printed about one of the files *)
Definition about (files : list string) (line : string) : Prop :=
  exists f, In f files
            /\ (line = f \/ line = no_pages_line f
                \/ exists e, line = open_error_line f e).

(** From [w] to [w'] only the given files were handled: the parser was
    called on an initial part of the list, in order; a directory entry that
    changed is one of the files, and it is gone; every line printed is
    about one of the files. *)
Definition sweep_confined (files : list string) (w w' : world) : Prop :=
  cwd w' = cwd w
  /\ (exists visited unvisited,
        files = visited ++ unvisited
        /\ calls w' = calls w ++ map FitzOpen visited)
  /\ (forall dir name,
        dir_files w' dir !! name = dir_files w dir !! name
        \/ (dir_files w' dir !! name = None
            /\ exists f, In f files
                         /\ dir = Path.dirname (Path.abspath (cwd w) f)
                         /\ name = Path.basename (Path.abspath (cwd w) f)))
  /\ (exists lines, stdout w' = stdout w ++ lines /\ Forall (about files) lines).

(** ** String facts *)

Lemma filter_forallb p s : Str.forallb p (Str.filter p s) = true.
Proof.
  induction s as [|c r IH]; simpl; [reflexivity|].
  destruct (p c) eqn:Hc; simpl; [rewrite Hc|]; exact IH.
Qed.

Lemma filename_char_not_upper c : filename_char c = true -> Str.is_upper c = false.
Proof.
  destruct c as [b0 b1 b2 b3 b4 b5 b6 b7].
  destruct b0, b1, b2, b3, b4, b5, b6, b7; vm_compute; congruence.
Qed.

Lemma lower_fixes_filename_chars s :
  Str.forallb filename_char s = true -> Str.lower s = s.
Proof.
  induction s as [|c r IH]; simpl; [reflexivity|].
  intros [Hc Hr]%andb_prop. unfold Str.lower_char.
  rewrite (filename_char_not_upper c Hc), (IH Hr). reflexivity.
Qed.

Lemma filename_char_ascii c :
  filename_char c = true -> (nat_of_ascii c <? 128)%nat = true.
Proof.
  destruct c as [b0 b1 b2 b3 b4 b5 b6 b7].
  destruct b0, b1, b2, b3, b4, b5, b6, b7; vm_compute; congruence.
Qed.

Lemma forallb_impl p q s :
  (forall c, p c = true -> q c = true) ->
  Str.forallb p s = true -> Str.forallb q s = true.
Proof.
  intros Hpq. induction s as [|c r IH]; simpl; [reflexivity|].
  intros [Hc Hr]%andb_prop. rewrite (Hpq c Hc), (IH Hr). reflexivity.
Qed.

(** the filter leaves nothing exactly when no character passes *)
Lemma filter_empty p s : Str.filter p s = "" <-> Str.existsb p s = false.
Proof.
  induction s as [|c r IH]; simpl; [tauto|].
  destruct (p c); simpl; [split; discriminate|exact IH].
Qed.

Lemma forallb_existsb_false p q s :
  (forall c, p c = true -> q c = false) ->
  Str.forallb p s = true -> Str.existsb q s = false.
Proof.
  intros Hpq. induction s as [|c r IH]; simpl; [reflexivity|].
  intros [Hc Hr]%andb_prop. rewrite (Hpq c Hc), (IH Hr). reflexivity.
Qed.

Lemma filename_char_not_slash c : filename_char c = true -> Ascii.eqb "/" c = false.
Proof.
  destruct c as [b0 b1 b2 b3 b4 b5 b6 b7].
  destruct b0, b1, b2, b3, b4, b5, b6, b7; vm_compute; congruence.
Qed.

(** ** Filename derivation *)

Lemma forallb_endswith_newline s :
  Str.forallb filename_char s = true ->
  Str.endswith s (String (ascii_of_nat 10) EmptyString) = false.
Proof.
  unfold Str.endswith. simpl String.length.
  induction s as [|c r IH]; [reflexivity|].
  intros [Hc Hr]%andb_prop. specialize (IH Hr).
  destruct r as [|c' r'].
  - simpl. destruct c as [b0 b1 b2 b3 b4 b5 b6 b7].
    destruct b0, b1, b2, b3, b4, b5, b6, b7; vm_compute in Hc |- *; congruence.
  - change (String.length (String c (String c' r')))
      with (S (String.length (String c' r'))).
    replace (S (String.length (String c' r')) - 1)%nat
      with (S (String.length (String c' r') - 1))%nat by (simpl; lia).
    simpl in IH |- *. exact IH.
Qed.

Section Filename.

Variable E : Env.

(** the second [lower()] of [url_to_filename] changes nothing *)
Lemma py_lower_fixes_filename_chars (s : string) :
  Str.forallb filename_char s = true -> py_lower E s = s.
Proof.
  intros Hall. unfold py_lower, Str.is_ascii.
  rewrite (forallb_impl filename_char _ s filename_char_ascii Hall).
  apply lower_fixes_filename_chars, Hall.
Qed.

(** the file name in terms of the path of the URL *)
Lemma url_to_filename_unfold (url name : string) :
  url_to_filename E url = inr name ->
  exists path,
    urlparse_path E url = inr path
    /\ name = Str.filter filename_char (py_lower E (Str.last (Str.split "/" path))).
Proof.
  unfold url_to_filename. destruct (urlparse_path E url) as [e|path]; [discriminate|].
  intros [= <-]. exists path. split; [reflexivity|].
  apply py_lower_fixes_filename_chars, filter_forallb.
Qed.

(** C2, as the code has it: whenever [url_to_filename] returns, the file
    name is the lower-cased last segment of the path of the URL without
    the characters that are not in [[a-z0-9._-]].  Every character of
    the name is in the class, so the name holds no path separator; it
    matches [^[a-z0-9._-]+$] exactly when it is not empty, and it is
    empty exactly when the lower-cased segment has no character of the
    class. *)
Theorem url_to_filename_charset (url name : string) :
  url_to_filename E url = inr name ->
  (exists path,
      urlparse_path E url = inr path
      /\ name = Str.filter filename_char
                  (py_lower E (Str.last (Str.split "/" path)))
      /\ (name = ""
          <-> Str.existsb filename_char
                (py_lower E (Str.last (Str.split "/" path))) = false))
  /\ Str.forallb filename_char name = true
  /\ Str.contains "/" name = false
  /\ (matches_filename_pattern name = true <-> name <> "").
Proof.
  intros Hname. destruct (url_to_filename_unfold url name Hname) as (path & Hpath & ->).
  set (segment := py_lower E (Str.last (Str.split "/" path))).
  assert (Hall : Str.forallb filename_char (Str.filter filename_char segment) = true)
    by apply filter_forallb.
  split; [|split; [exact Hall|split]].
  - exists path. split; [exact Hpath|]. split; [reflexivity|]. apply filter_empty.
  - apply (forallb_existsb_false filename_char); [|exact Hall].
    apply filename_char_not_slash.
  - unfold matches_filename_pattern.
    rewrite (forallb_endswith_newline _ Hall), Hall.
    destruct (String.eqb_spec (Str.filter filename_char segment) "") as [->|Hne].
    + split; [discriminate|congruence].
    + split; [intros _; exact Hne|reflexivity].
Qed.

End Filename.

(** ** Link extraction *)

Section LinkExtractor.

Variable E : Env.

Lemma parse_html_loop (tags : list tag) (acc : list string) :
  fold_left parse_html_step tags acc
  = (acc ++ List.filter pdf_href (omap (fun a => tag_attrs a !! "href") tags))%list.
Proof.
  revert acc. induction tags as [|t tags IH]; intros acc; simpl.
  - symmetry. apply app_nil_r.
  - rewrite IH. unfold parse_html_step.
    destruct (tag_attrs t !! "href") as [href|]; simpl; [|reflexivity].
    fold (pdf_href href). destruct (pdf_href href); [|reflexivity].
    rewrite <- app_assoc. reflexivity.
Qed.

Lemma hrefs_of_find_all (tags : list tag) :
  omap (fun a => tag_attrs a !! "href")
    (List.filter
       (fun t => String.eqb (tag_name t) "a"
                 && bool_decide (is_Some (tag_attrs t !! "href"))) tags)
  = omap (fun a => tag_attrs a !! "href")
      (List.filter (fun t => String.eqb (tag_name t) "a") tags).
Proof.
  induction tags as [|t tags IH]; simpl; [reflexivity|].
  destruct (String.eqb (tag_name t) "a"); simpl; [|exact IH].
  destruct (tag_attrs t !! "href") as [href|] eqn:Hh.
  - rewrite bool_decide_eq_true_2 by eauto. cbn [List.filter omap list_omap].
    rewrite Hh. f_equal. exact IH.
  - rewrite bool_decide_eq_false_2 by (intros [? ?]; discriminate). exact IH.
Qed.

(** C8: [parse_html] returns, in document order, exactly the [href]
    values of the anchors that carry one and whose percent-decoded form
    ends in [.pdf] in any case; the values are returned undecoded, and
    an anchor without [href] contributes nothing. *)
Theorem parse_html_extracts_pdf_hrefs (html : string) :
  parse_html E html = link_extractor_spec E html
  /\ (forall href, In href (parse_html E html) <->
        pdf_href href = true
        /\ exists a, In a (soup_tags E html) /\ tag_name a = "a"
                     /\ tag_attrs a !! "href" = Some href).
Proof.
  assert (Heq : parse_html E html = link_extractor_spec E html).
  { unfold parse_html, find_all_a_href, link_extractor_spec, anchors.
    rewrite parse_html_loop. simpl. apply f_equal, hrefs_of_find_all. }
  split; [exact Heq|]. intros href. rewrite Heq.
  unfold link_extractor_spec, anchors.
  rewrite filter_In, <- list_elem_of_In, list_elem_of_omap.
  split.
  - intros [(a & Ha & Hh) Hp]. split; [exact Hp|]. exists a.
    apply list_elem_of_In, filter_In in Ha. destruct Ha as [Hin Hn].
    apply String.eqb_eq in Hn. auto.
  - intros [Hp (a & Hin & Hn & Hh)]. split; [|exact Hp]. exists a.
    split; [|exact Hh]. apply list_elem_of_In, filter_In.
    split; [exact Hin|]. apply String.eqb_eq, Hn.
Qed.

End LinkExtractor.

(** ** File-system facts *)

Lemma file_at_delete_file (path : string) (w : world) :
  file_at (delete_file path w) path = None.
Proof.
  unfold file_at, delete_file, dir_files. simpl.
  rewrite lookup_insert_eq. simpl. apply lookup_delete_eq.
Qed.


Lemma file_at_add_stdout (line path : string) (w : world) :
  file_at (add_stdout line w) path = file_at w path.
Proof. reflexivity. Qed.

Lemma file_at_add_call (c : call) (path : string) (w : world) :
  file_at (add_call c w) path = file_at w path.
Proof. reflexivity. Qed.

(** a key of [fs] is a directory *)
Lemma is_under_refl (p : string) : Path.is_under p p = true.
Proof. unfold Path.is_under. rewrite String.eqb_refl. reflexivity. Qed.

Lemma is_dir_key (w : world) (path : string) (entries : gmap string string) :
  fs w !! Path.abspath (cwd w) path = Some entries -> is_dir w path = true.
Proof.
  intros Hkey. unfold is_dir, dirs. apply existsb_exists.
  exists (Path.abspath (cwd w) path). split; [|apply is_under_refl].
  apply list_elem_of_In, list_elem_of_fmap.
  exists (Path.abspath (cwd w) path, entries). split; [reflexivity|].
  apply elem_of_map_to_list. exact Hkey.
Qed.

Lemma is_dir_not_key (w : world) (path : string) :
  is_dir w path = false -> fs w !! Path.abspath (cwd w) path = None.
Proof.
  intros Hdir. destruct (fs w !! Path.abspath (cwd w) path) as [entries|] eqn:Hkey;
    [|reflexivity].
  rewrite (is_dir_key w path entries Hkey) in Hdir. discriminate.
Qed.

(** a directory in which a file is listed is a key *)
Lemma is_dir_listed (w : world) (path f : string) :
  f ∈ dom (dir_files w (Path.abspath (cwd w) path)) -> is_dir w path = true.
Proof.
  unfold dir_files. intros Hf.
  destruct (fs w !! Path.abspath (cwd w) path) as [entries|] eqn:Hkey.
  - exact (is_dir_key w path entries Hkey).
  - cbn [default from_option] in Hf. rewrite dom_empty_L in Hf.
    apply not_elem_of_empty in Hf. destruct Hf.
Qed.

Lemma is_dir_add_stdout (line path : string) (w : world) :
  is_dir (add_stdout line w) path = is_dir w path.
Proof. reflexivity. Qed.

Lemma is_dir_add_call (c : call) (path : string) (w : world) :
  is_dir (add_call c w) path = is_dir w path.
Proof. reflexivity. Qed.

(** the listing of a directory that exists *)
Lemma os_listdir_dir (path : string) (w : world) :
  is_dir w path = true ->
  os_listdir path w
  = (Ret (map_to_list (dir_files w (Path.abspath (cwd w) path))).*1, w).
Proof. intros Hdir. unfold os_listdir. rewrite Hdir. reflexivity. Qed.

Lemma os_listdir_same (path : string) (w : world) :
  snd (os_listdir path w) = w /\ fst (os_listdir path w) <> Hang.
Proof.
  unfold os_listdir. destruct (is_dir w path); [split; [reflexivity|discriminate]|].
  destruct (bool_decide _); split; try reflexivity; discriminate.
Qed.

Lemma file_at_dir_files (w w' : world) (path : string) :
  cwd w' = cwd w -> (forall d, dir_files w' d = dir_files w d) ->
  file_at w' path = file_at w path.
Proof. unfold file_at. intros -> Hdirs. rewrite Hdirs. reflexivity. Qed.

Lemma bool_decide_is_Some {A} (o : option A) :
  bool_decide (is_Some o) = match o with Some _ => true | None => false end.
Proof.
  destruct o.
  - apply bool_decide_eq_true_2. eauto.
  - apply bool_decide_eq_false_2. intros [? ?]. discriminate.
Qed.

(** ** The fetch phase *)

Section Fetch.

Variable E : Env.


(** the snapshot is removed before the second existence test, which
    therefore never finds it *)
Lemma fetch_phase_unfold (w : world) :
  fetch_phase E w
  = try_finally
      (save_html_with_selenium E page_url html_file_path HtmlDriver;;
       print ("File " +:+ html_file_path +:+ " has been created."))
      (driver_quit HtmlDriver)
      (add_call (Launch HtmlDriver)
         (match file_at w html_file_path with
          | Some _ => delete_file html_file_path w
          | None => w
          end)).
Proof.
  unfold fetch_phase, check_file_exists, os_path_isfile, remove_system_file,
    os_remove, create_html_driver, when.
  unfold bind at 1 2 3. simpl.
  rewrite bool_decide_is_Some.
  destruct (file_at w html_file_path) as [old|] eqn:Hold.
  - rewrite Hold, bool_decide_is_Some, file_at_delete_file. reflexivity.
  - unfold ret at 1. rewrite bool_decide_is_Some, Hold. reflexivity.
Qed.



(** reading the snapshot gives the text of its content *)
Lemma read_a_file_text (system_path content : string) (w : world) :
  file_at w system_path = Some content ->
  read_a_file E system_path w = (Ret (text_of E content), w).
Proof.
  intros Hfile. unfold read_a_file, open_read. rewrite Hfile. reflexivity.
Qed.

(** the download phase when a snapshot exists: its text is parsed, and
    the loop runs over the links found in it *)
Lemma download_phase_with_snapshot (w : world) (content : string) :
  file_at w html_file_path = Some content ->
  download_phase E w
  = try_finally
      (for_each (links_of E content)
         (process_link E (Path.abspath (cwd w) "PDFs") DownloadDriver))
      (driver_quit DownloadDriver)
      (browsing w).
Proof.
  intros Hfile.
  unfold download_phase, check_file_exists, os_path_isfile, os_path_abspath,
    initialize_web_driver, log_call, when.
  unfold bind at 1. rewrite bool_decide_is_Some, Hfile.
  unfold bind at 1. rewrite (read_a_file_text html_file_path content w Hfile).
  reflexivity.
Qed.

Lemma download_phase_without_snapshot (w : world) :
  file_at w html_file_path = None -> download_phase E w = (Ret tt, w).
Proof.
  intros Habs. unfold download_phase, check_file_exists, os_path_isfile.
  unfold bind at 1. rewrite bool_decide_is_Some, Habs. reflexivity.
Qed.


End Fetch.

(** ** The download wait *)

Section Wait.

Variables (folder : string) (before : gset string).

Lemma new_pdf_files_elem (entries : gmap string string) (f : string) :
  In f (new_pdf_files before entries)
  <-> (f ∈ dom entries) /\ (f ∉ before) /\ is_pdf_name f = true.
Proof.
  unfold new_pdf_files. rewrite filter_In, <- list_elem_of_In, elem_of_elements.
  rewrite elem_of_difference. tauto.
Qed.

Lemma quiet_new_pdf_files (entries : gmap string string) :
  quiet before entries -> new_pdf_files before entries = [].
Proof.
  intros Hq. destruct (new_pdf_files before entries) as [|f l] eqn:Hn; [reflexivity|].
  assert (Hin : In f (new_pdf_files before entries)) by (rewrite Hn; left; reflexivity).
  apply new_pdf_files_elem in Hin. destruct Hin as (Hd & Hb & Hp).
  rewrite (Hq f Hd Hb) in Hp. discriminate.
Qed.

Lemma listing_set (entries : gmap string string) :
  (list_to_set ((map_to_list entries).*1) : gset string) = dom entries.
Proof. symmetry. apply leibniz_equiv, dom_alt. Qed.

(** one turn of the loop, when the browser downloads into [folder] *)
Lemma wait_loop_turn (fuel : nat) (deadline : Z) (tk : tick) (rest : list tick)
    (w : world) :
  download_dir w = Some (Path.abspath (cwd w) folder) ->
  clock w = tk :: rest ->
  wait_loop (S fuel) folder before deadline w
  = if (reading tk <? deadline)%Z then
      match new_pdf_files before (dir_now tk) with
      | f :: _ => (Ret (Path.join folder f), at_tick tk rest w)
      | [] => wait_loop fuel folder before deadline (at_tick tk rest w)
      end
    else (Exc (Exn TimeoutError "PDF download timed out."), at_tick tk rest w).
Proof.
  intros Hdir Hclock. unfold at_tick. rewrite Hdir.
  cbn [wait_loop]. unfold bind at 1. unfold time_time. rewrite Hclock, Hdir.
  destruct (reading tk <? deadline)%Z; [|reflexivity].
  unfold bind at 1. rewrite (os_listdir_dir folder).
  - unfold dir_files. cbn [cwd fs set_fs set_clock].
    rewrite lookup_insert_eq. cbn [default from_option id]. rewrite listing_set.
    fold (new_pdf_files before (dir_now tk)).
    destruct (new_pdf_files before (dir_now tk)); reflexivity.
  - apply (is_dir_key _ folder (dir_now tk)). cbn [cwd fs set_fs set_clock].
    apply lookup_insert_eq.
Qed.

Lemma at_tick_at_tick (tk1 tk2 : tick) (rest1 rest2 : list tick) (w : world) :
  at_tick tk2 rest2 (at_tick tk1 rest1 w) = at_tick tk2 rest2 w.
Proof.
  unfold at_tick. destruct (download_dir w) as [d|] eqn:Hd; simpl; rewrite ?Hd.
  - unfold set_fs, set_clock. simpl. rewrite insert_insert_eq. reflexivity.
  - reflexivity.
Qed.

Lemma wait_loop_polls (deadline : Z) (pre : list tick) :
  forall (fuel : nat) (tk : tick) (post : list tick) (w : world),
    download_dir w = Some (Path.abspath (cwd w) folder) ->
    clock w = pre ++ tk :: post ->
    (length pre < fuel)%nat ->
    Forall (fun p => (reading p < deadline)%Z /\ quiet before (dir_now p)) pre ->
    wait_loop fuel folder before deadline w
    = if (reading tk <? deadline)%Z then
        match new_pdf_files before (dir_now tk) with
        | f :: _ => (Ret (Path.join folder f), at_tick tk post w)
        | [] => wait_loop (fuel - S (length pre)) folder before deadline
                  (at_tick tk post w)
        end
      else (Exc (Exn TimeoutError "PDF download timed out."), at_tick tk post w).
Proof.
  induction pre as [|p pre IH]; intros fuel tk post w Hdir Hclock Hfuel Hquiet.
  - destruct fuel as [|fuel]; [simpl in Hfuel; lia|].
    rewrite (wait_loop_turn fuel deadline tk post w Hdir Hclock).
    simpl. rewrite Nat.sub_0_r. reflexivity.
  - destruct fuel as [|fuel]; [simpl in Hfuel; lia|].
    apply Forall_cons in Hquiet. destruct Hquiet as [[Hp Hq] Hquiet].
    rewrite (wait_loop_turn fuel deadline p (pre ++ tk :: post) w Hdir Hclock).
    apply Z.ltb_lt in Hp. rewrite Hp, (quiet_new_pdf_files _ Hq).
    rewrite (IH fuel tk post (at_tick p (pre ++ tk :: post) w)).
    + rewrite at_tick_at_tick. reflexivity.
    + unfold at_tick. rewrite Hdir. exact Hdir.
    + unfold at_tick. rewrite Hdir. reflexivity.
    + simpl in Hfuel. lia.
    + exact Hquiet.
Qed.

(** C3: the wait reads the clock once for the deadline and then once per
    poll.  While the polls are in time and show no new PDF it goes on; the
    first poll in time whose listing holds a name that is not in the
    snapshot and ends in [.pdf] in any case makes it return the path of
    such a file at once; the first poll at or after the deadline makes it
    raise [TimeoutError]. *)
Theorem wait_for_pdf_download_outcome (timeout_seconds : Z) (w : world)
    (t0 : tick) (pre : list tick) (tk : tick) (post : list tick) :
  download_dir w = Some (Path.abspath (cwd w) folder) ->
  clock w = t0 :: pre ++ tk :: post ->
  Forall (fun p => (reading p < reading t0 + seconds timeout_seconds)%Z
                   /\ quiet before (dir_now p)) pre ->
  ((reading tk < reading t0 + seconds timeout_seconds)%Z ->
   (exists f, (f ∈ dom (dir_now tk)) /\ (f ∉ before) /\ is_pdf_name f = true) ->
   exists f, (f ∈ dom (dir_now tk)) /\ (f ∉ before) /\ is_pdf_name f = true
             /\ wait_for_pdf_download folder before timeout_seconds w
                = (Ret (Path.join folder f), at_tick tk post w))
  /\ ((reading t0 + seconds timeout_seconds <= reading tk)%Z ->
      wait_for_pdf_download folder before timeout_seconds w
      = (Exc (Exn TimeoutError "PDF download timed out."), at_tick tk post w)).
Proof.
  intros Hdir Hclock Hquiet.
  assert (Hstart : wait_for_pdf_download folder before timeout_seconds w
                   = wait_loop (S (length (pre ++ tk :: post))) folder before
                       (reading t0 + seconds timeout_seconds)
                       (at_tick t0 (pre ++ tk :: post) w)).
  { unfold wait_for_pdf_download, bind, time_time, at_tick.
    rewrite Hclock, Hdir. reflexivity. }
  rewrite Hstart.
  rewrite (wait_loop_polls _ pre _ tk post).
  - rewrite at_tick_at_tick. split.
    + intros Hin (f & Hd & Hb & Hp). apply Z.ltb_lt in Hin. rewrite Hin.
      destruct (new_pdf_files before (dir_now tk)) as [|g l] eqn:Hnew.
      * assert (Hf : In f (new_pdf_files before (dir_now tk)))
          by (apply new_pdf_files_elem; auto).
        rewrite Hnew in Hf. destruct Hf.
      * assert (Hg : In g (new_pdf_files before (dir_now tk)))
          by (rewrite Hnew; left; reflexivity).
        apply new_pdf_files_elem in Hg. destruct Hg as (Hgd & Hgb & Hgp).
        exists g. auto.
    + intros Hout. apply Z.ltb_ge in Hout. rewrite Hout. reflexivity.
  - unfold at_tick. rewrite Hdir. exact Hdir.
  - unfold at_tick. rewrite Hdir. reflexivity.
  - rewrite length_app. simpl. lia.
  - exact Hquiet.
Qed.

End Wait.

(** ** Downloading one document *)

Lemma same_log_refl (w : world) : same_log w w.
Proof. repeat split. Qed.

Lemma same_log_trans (w1 w2 w3 : world) :
  same_log w1 w2 -> same_log w2 w3 -> same_log w1 w3.
Proof.
  unfold same_log. intros (H1 & H2 & H3) (I1 & I2 & I3).
  repeat split; congruence.
Qed.

Lemma time_time_same_log (w : world) : same_log w (snd (time_time w)).
Proof.
  unfold time_time. destruct (clock w) as [|tk rest]; [apply same_log_refl|].
  destruct (download_dir w); repeat split.
Qed.

Lemma wait_loop_same_log (folder : string) (before : gset string) (deadline : Z)
    (fuel : nat) :
  forall w, same_log w (snd (wait_loop fuel folder before deadline w)).
Proof.
  induction fuel as [|fuel IH]; intros w; [apply same_log_refl|].
  cbn [wait_loop]. unfold bind at 1.
  pose proof (time_time_same_log w) as Ht.
  destruct (time_time w) as [[now| |] w1]; simpl in Ht |- *; try exact Ht.
  destruct (now <? deadline)%Z; [|exact Ht].
  unfold bind at 1. destruct (os_listdir_same folder w1) as [Hsame _].
  destruct (os_listdir folder w1) as [[listing| |] w2]; cbn [snd] in Hsame;
    subst w2; try exact Ht.
  match goal with
  | |- context [List.filter is_pdf_name ?l] => destruct (List.filter is_pdf_name l)
  end.
  - exact (same_log_trans _ _ _ Ht (IH w1)).
  - exact Ht.
Qed.

Lemma wait_for_pdf_download_same_log (folder : string) (before : gset string)
    (timeout_seconds : Z) (w : world) :
  same_log w (snd (wait_for_pdf_download folder before timeout_seconds w)).
Proof.
  unfold wait_for_pdf_download, bind.
  pose proof (time_time_same_log w) as Ht.
  destruct (time_time w) as [[now| |] w1]; simpl in Ht |- *; try exact Ht.
  pose proof (wait_loop_same_log folder before
                (now + seconds timeout_seconds) (S (length (clock w1))) w1) as Hl.
  exact (same_log_trans _ _ _ Ht Hl).
Qed.

(** the loop gives up only when the clock script ends *)
Lemma wait_loop_decides (folder : string) (before : gset string) (deadline : Z)
    (fuel : nat) :
  forall w,
    (length (clock w) < fuel)%nat ->
    Exists (fun p => (deadline <= reading p)%Z) (clock w) ->
    fst (wait_loop fuel folder before deadline w) <> Hang.
Proof.
  induction fuel as [|fuel IH]; intros w Hfuel Hex; [lia|].
  cbn [wait_loop]. unfold bind at 1. unfold time_time.
  destruct (clock w) as [|tk rest] eqn:Hclock; [inversion Hex|].
  set (w1 := match download_dir w with
             | Some d => set_fs (<[d:=dir_now tk]> (fs (set_clock rest w)))
                           (set_clock rest w)
             | None => set_clock rest w
             end).
  assert (Hc1 : clock w1 = rest) by (unfold w1; destruct (download_dir w); reflexivity).
  destruct (reading tk <? deadline)%Z eqn:Hlt; [|simpl; discriminate].
  unfold bind at 1. destruct (os_listdir_same folder w1) as [Hsame Hlist].
  destruct (os_listdir folder w1) as [[listing|e|] w2]; cbn [fst snd] in Hsame, Hlist;
    subst w2; [|simpl; discriminate|contradiction].
  match goal with
  | |- context [List.filter is_pdf_name ?l] => destruct (List.filter is_pdf_name l)
  end; [|simpl; discriminate].
  apply IH.
  - rewrite Hc1. simpl in Hfuel. lia.
  - rewrite Hc1. apply Exists_cons in Hex. destruct Hex as [Hex|Hex]; [|exact Hex].
    apply Z.ltb_lt in Hlt. lia.
Qed.

Lemma wait_for_pdf_download_decides (folder : string) (before : gset string)
    (timeout_seconds : Z) (w : world) :
  deadline_reached timeout_seconds (clock w) ->
  fst (wait_for_pdf_download folder before timeout_seconds w) <> Hang.
Proof.
  unfold deadline_reached, wait_for_pdf_download, bind, time_time.
  destruct (clock w) as [|t0 polls] eqn:Hclock; [tauto|]. intros Hex.
  set (w1 := match download_dir w with
             | Some d => set_fs (<[d:=dir_now t0]> (fs (set_clock polls w)))
                           (set_clock polls w)
             | None => set_clock polls w
             end).
  assert (Hc1 : clock w1 = polls) by (unfold w1; destruct (download_dir w); reflexivity).
  apply wait_loop_decides; rewrite Hc1; [lia|exact Hex].
Qed.

(** *** The output folder *)

Lemma is_dir_ext (w w' : world) (path : string) :
  cwd w' = cwd w -> fs w' = fs w -> is_dir w' path = is_dir w path.
Proof. unfold is_dir, dirs. intros -> ->. reflexivity. Qed.

(** [os.makedirs] touches no regular file, and nothing but the file
    system *)
Lemma os_makedirs_frame (name : string) (w : world) :
  same_log w (snd (os_makedirs name w))
  /\ clock (snd (os_makedirs name w)) = clock w
  /\ download_dir (snd (os_makedirs name w)) = download_dir w
  /\ (forall dir, dir_files (snd (os_makedirs name w)) dir = dir_files w dir).
Proof.
  unfold os_makedirs. destruct (is_dir w name) eqn:Hdir;
    [cbn; repeat split|].
  destruct (bool_decide _); [cbn; repeat split|].
  destruct (List.existsb _ _); [cbn; repeat split|].
  cbn. repeat split. intros dir. unfold dir_files. cbn [fs set_fs].
  destruct (decide (Path.abspath (cwd w) name = dir)) as [<-|Hne].
  - rewrite lookup_insert_eq, (is_dir_not_key w name Hdir). reflexivity.
  - rewrite lookup_insert_ne by exact Hne. reflexivity.
Qed.

Lemma os_makedirs_file_at (name path : string) (w : world) :
  file_at (snd (os_makedirs name w)) path = file_at w path.
Proof.
  destruct (os_makedirs_frame name w) as ((_ & _ & Hcwd) & _ & _ & Hdirs).
  apply file_at_dir_files; assumption.
Qed.

Lemma os_makedirs_decides (name : string) (w : world) :
  fst (os_makedirs name w) <> Hang.
Proof.
  unfold os_makedirs. destruct (is_dir w name); [discriminate|].
  destruct (bool_decide _); [discriminate|].
  destruct (List.existsb _ _); discriminate.
Qed.

(** when it raises, nothing has changed *)
Lemma os_makedirs_raises (name : string) (w w' : world) (e : exn) :
  os_makedirs name w = (Exc e, w') -> w' = w.
Proof.
  unfold os_makedirs. destruct (is_dir w name); [discriminate|].
  destruct (bool_decide _); [intros [= _ <-]; reflexivity|].
  destruct (List.existsb _ _); [intros [= _ <-]; reflexivity|discriminate].
Qed.

(** a folder that exists is left as it is *)
Lemma os_makedirs_exists (name : string) (w : world) :
  is_dir w name = true -> os_makedirs name w = (Ret tt, w).
Proof. intros Hdir. unfold os_makedirs. rewrite Hdir. reflexivity. Qed.

(** when it returns, the folder exists *)
Lemma os_makedirs_dir (name : string) (w w0 : world) :
  os_makedirs name w = (Ret tt, w0) -> is_dir w0 name = true.
Proof.
  unfold os_makedirs. destruct (is_dir w name) eqn:Hdir;
    [intros [= <-]; exact Hdir|].
  destruct (bool_decide _); [discriminate|].
  destruct (List.existsb _ _); [discriminate|].
  intros [= <-]. apply (is_dir_key _ name ∅). cbn [cwd fs set_fs].
  apply lookup_insert_eq.
Qed.

(** whether it returns depends on the files and on the working
    directory only *)
Lemma os_makedirs_ext (name : string) (w w' : world) :
  cwd w' = cwd w -> fs w' = fs w ->
  fst (os_makedirs name w') = fst (os_makedirs name w).
Proof.
  intros Hcwd Hfs. unfold os_makedirs, is_dir, dirs, file_at, dir_files.
  rewrite Hcwd, Hfs.
  repeat match goal with
         | |- context [if ?b then _ else _] => destruct b
         end; reflexivity.
Qed.

(** *** The relocation *)

Lemma shutil_move_same_log (src dst : string) (w : world) :
  same_log w (snd (shutil_move src dst w)).
Proof.
  unfold shutil_move. destruct (file_at w src); [|apply same_log_refl].
  destruct (is_dir w dst); [|repeat split].
  destruct (path_exists _ _); repeat split.
Qed.

Lemma shutil_move_decides (src dst : string) (w : world) :
  fst (shutil_move src dst w) <> Hang.
Proof.
  unfold shutil_move. destruct (file_at w src); [|discriminate].
  destruct (is_dir w dst); [|discriminate].
  destruct (path_exists _ _); discriminate.
Qed.


(** into a target that is a directory *)
Lemma shutil_move_into (src dst content : string) (w : world) :
  file_at w src = Some content -> is_dir w dst = true ->
  shutil_move src dst w
  = let real_dst := Path.join dst (Path.basename (Path.rstrip_slash src)) in
    if path_exists w real_dst
    then (Exc (Exn ShutilError
                 ("Destination path '" +:+ real_dst +:+ "' already exists")), w)
    else (Ret tt, write_file real_dst content (delete_file src w)).
Proof. intros Hfile Hdir. unfold shutil_move. rewrite Hfile, Hdir. reflexivity. Qed.



Section Download.

Variables (E : Env) (output_folder : string) (d : driver).

(** an exception of [os.makedirs] leaves the function: the call stands
    before the [try] block *)
Lemma download_single_pdf_refused (url filename : string) (w w' : world)
    (e : exn) :
  os_makedirs output_folder w = (Exc e, w') ->
  download_single_pdf E url filename output_folder d w = (Exc e, w').
Proof.
  intros Hmk. unfold download_single_pdf. unfold bind at 1. rewrite Hmk.
  reflexivity.
Qed.

Lemma download_single_pdf_existing (url filename : string) (w w0 : world) :
  os_makedirs output_folder w = (Ret tt, w0) ->
  is_Some (file_at w0 (Path.join output_folder filename)) ->
  download_single_pdf E url filename output_folder d w
  = (Ret tt,
     add_stdout ("File already exists: " +:+ Path.join output_folder filename) w0).
Proof.
  intros Hmk Hex. unfold download_single_pdf. unfold bind at 1. rewrite Hmk.
  unfold check_file_exists, os_path_isfile, bind, print.
  rewrite bool_decide_eq_true_2 by exact Hex. reflexivity.
Qed.

(** the handler catches whatever the [try] block raises *)
Lemma download_single_pdf_missing (url filename : string) (w w0 : world) :
  os_makedirs output_folder w = (Ret tt, w0) ->
  file_at w0 (Path.join output_folder filename) = None ->
  download_single_pdf E url filename output_folder d w
  = match download_attempt E url (Path.join output_folder filename)
            output_folder d w0 with
    | (Exc e, w1) => (Ret tt, add_stdout (failure_line e) w1)
    | other => other
    end.
Proof.
  intros Hmk Habs. unfold download_single_pdf. unfold bind at 1. rewrite Hmk.
  unfold check_file_exists, os_path_isfile. unfold bind at 1.
  rewrite bool_decide_is_Some, Habs.
  unfold try_except, is_Exception, print, failure_line.
  destruct (download_attempt _ _ _ _ _ _) as [[[]|e|] w1]; reflexivity.
Qed.

(** the [try] block, step by step, when the folder exists *)
Lemma download_attempt_unfold (url filename : string) (w0 : world) :
  is_dir w0 output_folder = true ->
  download_attempt E url (Path.join output_folder filename) output_folder d w0
  = match driver_get_raises E d url with
    | Some e => (Exc e, navigated d url w0)
    | None =>
        match wait_for_pdf_download output_folder
                (files_before output_folder w0) 3 (navigated d url w0) with
        | (Ret downloaded_pdf_path, w1) =>
            match shutil_move downloaded_pdf_path
                    (Path.join output_folder filename) w1 with
            | (Ret _, w2) =>
                (Ret tt,
                 add_stdout ("Download complete: "
                             +:+ Path.join output_folder filename) w2)
            | (Exc e, w2) => (Exc e, w2)
            | (Hang, w2) => (Hang, w2)
            end
        | (Exc e, w1) => (Exc e, w1)
        | (Hang, w1) => (Hang, w1)
        end
    end.
Proof.
  intros Hdir. unfold download_attempt, print. unfold bind at 1 2.
  rewrite os_listdir_dir by exact Hdir.
  unfold driver_get, log_call, navigated, files_before.
  unfold bind at 1 2. cbn beta iota.
  change (dir_files (add_stdout ("Starting download from: " +:+ url) w0))
    with (dir_files w0).
  change (cwd (add_stdout ("Starting download from: " +:+ url) w0)) with (cwd w0).
  destruct (driver_get_raises E d url) as [e|]; [reflexivity|].
  unfold ret at 1. unfold bind at 1. cbn beta iota.
  destruct (wait_for_pdf_download _ _ _ _) as [[path|e|] w1]; reflexivity.
Qed.

Lemma download_single_pdf_attempt (url filename : string) (w w0 : world) :
  os_makedirs output_folder w = (Ret tt, w0) ->
  file_at w0 (Path.join output_folder filename) = None ->
  download_single_pdf E url filename output_folder d w
  = match driver_get_raises E d url with
    | Some e => (Ret tt, add_stdout (failure_line e) (navigated d url w0))
    | None =>
        match wait_for_pdf_download output_folder
                (files_before output_folder w0) 3 (navigated d url w0) with
        | (Ret downloaded_pdf_path, w1) =>
            match shutil_move downloaded_pdf_path
                    (Path.join output_folder filename) w1 with
            | (Ret _, w2) =>
                (Ret tt,
                 add_stdout ("Download complete: "
                             +:+ Path.join output_folder filename) w2)
            | (Exc e, w2) => (Ret tt, add_stdout (failure_line e) w2)
            | (Hang, w2) => (Hang, w2)
            end
        | (Exc e, w1) => (Ret tt, add_stdout (failure_line e) w1)
        | (Hang, w1) => (Hang, w1)
        end
    end.
Proof.
  intros Hmk Habs. rewrite (download_single_pdf_missing url filename w w0 Hmk Habs).
  rewrite (download_attempt_unfold url filename w0 (os_makedirs_dir _ _ _ Hmk)).
  destruct (driver_get_raises E d url); [reflexivity|].
  destruct (wait_for_pdf_download _ _ _ _) as [[path|e'|] w1]; try reflexivity.
  destruct (shutil_move _ _ _) as [[[]|e'|] w2]; reflexivity.
Qed.

(** the cases of [attempt_raises] are exceptions of the [try] block *)
Lemma download_attempt_raises (url filename : string) (w0 : world) (e : exn) :
  is_dir w0 output_folder = true ->
  attempt_raises E output_folder d url filename w0 e ->
  exists w1,
    download_attempt E url (Path.join output_folder filename) output_folder d w0
    = (Exc e, w1).
Proof.
  intros Hdir Hraise. rewrite (download_attempt_unfold url filename w0 Hdir).
  destruct Hraise as [Hget|[Hget [Hwait|(path & w1 & Hwait & Hmove)]]];
    rewrite Hget.
  - eauto.
  - destruct (wait_for_pdf_download _ _ _ _) as [r w1]. simpl in Hwait.
    subst r. eauto.
  - rewrite Hwait.
    destruct (shutil_move _ _ _) as [r w2]. simpl in Hmove. subst r. eauto.
Qed.

(** once the folder is in place, no exception leaves
    [download_single_pdf] *)
Lemma download_single_pdf_contains (url filename : string) (w w0 : world) :
  os_makedirs output_folder w = (Ret tt, w0) ->
  forall e, fst (download_single_pdf E url filename output_folder d w) <> Exc e.
Proof.
  intros Hmk e. destruct (file_at w0 (Path.join output_folder filename)) eqn:Hf.
  - rewrite (download_single_pdf_existing url filename w w0 Hmk) by eauto.
    discriminate.
  - rewrite (download_single_pdf_missing url filename w w0 Hmk Hf).
    destruct (download_attempt _ _ _ _ _ _) as [[[]|e'|] w1]; discriminate.
Qed.

(** with a clock that reaches the deadline, it returns *)
Lemma download_single_pdf_returns (url filename : string) (w w0 : world) :
  os_makedirs output_folder w = (Ret tt, w0) ->
  deadline_reached 3 (clock w) ->
  exists w', download_single_pdf E url filename output_folder d w = (Ret tt, w').
Proof.
  intros Hmk Hclock.
  assert (Hclock0 : deadline_reached 3 (clock w0)).
  { destruct (os_makedirs_frame output_folder w) as (_ & Hc & _).
    rewrite Hmk in Hc. cbn [snd] in Hc. rewrite Hc. exact Hclock. }
  destruct (file_at w0 (Path.join output_folder filename)) eqn:Hf.
  - rewrite (download_single_pdf_existing url filename w w0 Hmk) by eauto. eauto.
  - rewrite (download_single_pdf_attempt url filename w w0 Hmk Hf).
    destruct (driver_get_raises E d url); [eauto|].
    pose proof (wait_for_pdf_download_decides output_folder
                  (files_before output_folder w0) 3 (navigated d url w0) Hclock0)
      as Hw.
    destruct (wait_for_pdf_download _ _ _ _) as [[path|e'|] w1];
      [|eauto|simpl in Hw; congruence].
    pose proof (shutil_move_decides path (Path.join output_folder filename) w1)
      as Hm.
    destruct (shutil_move _ _ _) as [[[]|e'|] w2];
      [eauto|eauto|simpl in Hm; congruence].
Qed.

(** the only call it makes is the navigation; it makes it exactly when
    the folder is in place and the target is missing *)
Lemma download_single_pdf_calls (url filename : string) (w : world) :
  exists navigation,
    calls (snd (download_single_pdf E url filename output_folder d w))
    = calls w ++ navigation
    /\ (navigation = [] \/ navigation = [Get d url])
    /\ (navigation = [Get d url]
        <-> fst (os_makedirs output_folder w) = Ret tt
            /\ file_at w (Path.join output_folder filename) = None).
Proof.
  destruct (os_makedirs_frame output_folder w) as ((Hcalls & _ & _) & _).
  pose proof (os_makedirs_file_at output_folder
                (Path.join output_folder filename) w) as Hfile.
  pose proof (os_makedirs_decides output_folder w) as Hdec.
  destruct (os_makedirs output_folder w) as [[[]|e|] w0] eqn:Hmk;
    cbn [fst snd] in Hcalls, Hfile, Hdec; [| |contradiction].
  - destruct (file_at w0 (Path.join output_folder filename)) eqn:Hf.
    + rewrite (download_single_pdf_existing url filename w w0 Hmk) by eauto.
      exists []. cbn [snd calls add_stdout]. rewrite Hcalls, app_nil_r.
      split; [reflexivity|]. split; [left; reflexivity|].
      split; [discriminate|]. intros [_ Habs]. congruence.
    + rewrite (download_single_pdf_attempt url filename w w0 Hmk Hf).
      exists [Get d url].
      split;
        [|split; [right; reflexivity
                 |split; [intros _; split; [reflexivity|congruence]|reflexivity]]].
      destruct (driver_get_raises E d url); [cbn; congruence|].
      pose proof (wait_for_pdf_download_same_log output_folder
                    (files_before output_folder w0) 3 (navigated d url w0))
        as (Hw & _ & _).
      destruct (wait_for_pdf_download _ _ _ _) as [[path|e'|] w1];
        cbn [snd] in Hw; cbn in Hw |- *; try congruence.
      pose proof (shutil_move_same_log path (Path.join output_folder filename) w1)
        as (Hm & _ & _).
      destruct (shutil_move _ _ _) as [[[]|e'|] w2]; cbn in Hm |- *; congruence.
  - rewrite (download_single_pdf_refused url filename w w0 e Hmk).
    exists []. cbn [snd]. rewrite Hcalls, app_nil_r.
    split; [reflexivity|]. split; [left; reflexivity|].
    split; [discriminate|]. intros [[=] _].
Qed.

End Download.

(** ** The download loop *)

Section Links.

Variables (E : Env) (output_dir : string) (d : driver).

Lemma process_link_unfold (pdf_link : string) (w : world) :
  process_link E output_dir d pdf_link w
  = match url_to_filename E (fix_relative_url E pdf_link) with
    | inl e => (Exc e, validated E pdf_link w)
    | inr filename =>
        match download_single_pdf E (fix_relative_url E pdf_link) filename
                output_dir d (validated E pdf_link w) with
        | (Ret _, w') =>
            (Ret tt, add_stdout "All PDF links have been processed." w')
        | other => other
        end
    end.
Proof.
  unfold process_link, validate_url, fix_relative_url, validated, log_call.
  unfold bind at 1 2 3. unfold ret at 1. cbn beta iota.
  destruct (validators_url E pdf_link); cbn [negb].
  - unfold lift, raise, ret, bind, print. cbn beta iota zeta.
    destruct (url_to_filename E pdf_link) as [e|filename]; [reflexivity|].
    destruct (download_single_pdf _ _ _ _ _ _) as [[[]|e|] w']; reflexivity.
  - unfold lift, raise, ret, bind, print. cbn beta iota zeta.
    destruct (url_to_filename E (site_origin +:+ pdf_link)) as [e|filename];
      [reflexivity|].
    destruct (download_single_pdf _ _ _ _ _ _) as [[[]|e|] w']; reflexivity.
Qed.

Lemma validated_calls (pdf_link : string) (w : world) :
  calls (validated E pdf_link w) = calls w ++ [ValidateUrl pdf_link].
Proof. unfold validated. destruct (validators_url E pdf_link); reflexivity. Qed.

Lemma validated_files (pdf_link path : string) (w : world) :
  file_at (validated E pdf_link w) path = file_at w path.
Proof. unfold validated. destruct (validators_url E pdf_link); reflexivity. Qed.

Lemma validated_clock (pdf_link : string) (w : world) :
  clock (validated E pdf_link w) = clock w.
Proof. unfold validated. destruct (validators_url E pdf_link); reflexivity. Qed.

Lemma validated_fs (pdf_link : string) (w : world) :
  fs (validated E pdf_link w) = fs w.
Proof. unfold validated. destruct (validators_url E pdf_link); reflexivity. Qed.

Lemma validated_cwd (pdf_link : string) (w : world) :
  cwd (validated E pdf_link w) = cwd w.
Proof. unfold validated. destruct (validators_url E pdf_link); reflexivity. Qed.

Lemma validated_download_dir (pdf_link : string) (w : world) :
  download_dir (validated E pdf_link w) = download_dir w.
Proof. unfold validated. destruct (validators_url E pdf_link); reflexivity. Qed.

(** C9: for a link, [main] asks the validator once, about the link as
    extracted, and makes no other validity test; the only other call is
    the navigation, and the URL it navigates to is the link itself when
    the validator accepted it and the site origin followed by the link,
    character for character, when it did not.  The navigation takes
    place exactly when the file name can be derived, the output folder
    is there or can be made, and the target is missing. *)
Theorem link_is_validated_once_then_used (pdf_link : string) (w : world) :
  fix_relative_url E pdf_link
  = (if validators_url E pdf_link then pdf_link
     else "https://www.biokleen.com" +:+ pdf_link)
  /\ exists navigation,
      calls (snd (process_link E output_dir d pdf_link w))
      = calls w ++ ValidateUrl pdf_link :: navigation
      /\ (navigation = [] \/ navigation = [Get d (fix_relative_url E pdf_link)])
      /\ (navigation = [Get d (fix_relative_url E pdf_link)]
          <-> exists filename,
                url_to_filename E (fix_relative_url E pdf_link) = inr filename
                /\ fst (os_makedirs output_dir w) = Ret tt
                /\ file_at w (Path.join output_dir filename) = None).
Proof.
  split; [reflexivity|].
  rewrite process_link_unfold.
  destruct (url_to_filename E (fix_relative_url E pdf_link)) as [e|filename] eqn:Hfn.
  - exists []. simpl. rewrite validated_calls.
    split; [reflexivity|]. split; [left; reflexivity|].
    split; [discriminate|]. intros (filename & [=] & _).
  - destruct (download_single_pdf_calls E output_dir d
                (fix_relative_url E pdf_link) filename (validated E pdf_link w))
      as (navigation & Hcalls & Hshape & Hnav).
    rewrite validated_files, validated_calls, <- app_assoc in *.
    rewrite (os_makedirs_ext output_dir w (validated E pdf_link w)
               (validated_cwd pdf_link w) (validated_fs pdf_link w)) in Hnav.
    exists navigation. split.
    + destruct (download_single_pdf _ _ _ _ _ _) as [[[]|e|] w']; exact Hcalls.
    + split; [exact Hshape|]. rewrite Hnav. split.
      * intros [Hmk Habs]. exists filename. auto.
      * intros (filename' & [= <-] & Hmk & Habs). auto.
Qed.

(** C6, as the code has it.  Once the file name of a link is derived and
    the output folder is in place, no exception stops the loop: whatever
    the [try] block raises is caught and printed as a failure of that
    link, the link ends normally and the loop goes on with the next one;
    the navigation, the wait and the relocation are such sources of
    exceptions.  An exception of [os.makedirs], which stands before the
    [try] block, is not caught: it ends the loop. *)
Theorem download_failure_is_contained (pdf_link filename : string)
    (rest : list string) (w : world) :
  url_to_filename E (fix_relative_url E pdf_link) = inr filename ->
  deadline_reached 3 (clock w) ->
  (forall w0,
      os_makedirs output_dir (validated E pdf_link w) = (Ret tt, w0) ->
      exists w',
        process_link E output_dir d pdf_link w = (Ret tt, w')
        /\ for_each (pdf_link :: rest) (process_link E output_dir d) w
           = for_each rest (process_link E output_dir d) w'
        /\ (forall e w1,
              file_at w0 (Path.join output_dir filename) = None ->
              download_attempt E (fix_relative_url E pdf_link)
                (Path.join output_dir filename) output_dir d w0 = (Exc e, w1) ->
              w' = add_stdout "All PDF links have been processed."
                     (add_stdout ("Error downloading PDF: " +:+ exn_msg e) w1))
        /\ (forall e,
              attempt_raises E output_dir d (fix_relative_url E pdf_link)
                filename w0 e ->
              exists w1,
                download_attempt E (fix_relative_url E pdf_link)
                  (Path.join output_dir filename) output_dir d w0 = (Exc e, w1)))
  /\ (forall e w0,
        os_makedirs output_dir (validated E pdf_link w) = (Exc e, w0) ->
        process_link E output_dir d pdf_link w = (Exc e, w0)
        /\ for_each (pdf_link :: rest) (process_link E output_dir d) w
           = (Exc e, w0)).
Proof.
  intros Hfn Hclock. split.
  - intros w0 Hmk.
    assert (Hclock' : deadline_reached 3 (clock (validated E pdf_link w)))
      by (rewrite validated_clock; exact Hclock).
    destruct (download_single_pdf_returns E output_dir d
                (fix_relative_url E pdf_link) filename _ w0 Hmk Hclock')
      as [w1 Hw1].
    assert (Hstep : process_link E output_dir d pdf_link w
                    = (Ret tt, add_stdout "All PDF links have been processed." w1)).
    { rewrite process_link_unfold, Hfn, Hw1. reflexivity. }
    exists (add_stdout "All PDF links have been processed." w1).
    split; [exact Hstep|]. split; [|split].
    + cbn [for_each]. unfold bind at 1. rewrite Hstep. reflexivity.
    + intros e w2 Habs Hraise.
      rewrite (download_single_pdf_missing E output_dir d _ filename _ w0 Hmk Habs),
        Hraise in Hw1.
      injection Hw1 as <-. reflexivity.
    + intros e. apply download_attempt_raises.
      exact (os_makedirs_dir _ _ _ Hmk).
  - intros e w0 Hmk.
    assert (Hstep : process_link E output_dir d pdf_link w = (Exc e, w0)).
    { rewrite process_link_unfold, Hfn.
      rewrite (download_single_pdf_refused E output_dir d _ filename _ w0 e Hmk).
      reflexivity. }
    split; [exact Hstep|].
    cbn [for_each]. unfold bind at 1. rewrite Hstep. reflexivity.
Qed.

Lemma file_at_ext (w w' : world) (path : string) :
  cwd w' = cwd w -> fs w' = fs w -> file_at w' path = file_at w path.
Proof. unfold file_at, dir_files. intros -> ->. reflexivity. Qed.

Lemma rerun_loop (pdf_links : list string) (w : world) :
  is_dir w output_dir = true ->
  forall w0,
    cwd w0 = cwd w -> fs w0 = fs w ->
    Forall (already_downloaded E output_dir w) pdf_links ->
    exists w',
      for_each pdf_links (process_link E output_dir d) w0 = (Ret tt, w')
      /\ fs w' = fs w /\ cwd w' = cwd w /\ clock w' = clock w0
      /\ download_dir w' = download_dir w0
      /\ calls w' = calls w0 ++ map ValidateUrl pdf_links.
Proof.
  intros Hdir.
  induction pdf_links as [|pdf_link rest IH]; intros w0 Hcwd Hfs Hall.
  - exists w0. simpl. rewrite app_nil_r. repeat split; auto.
  - apply Forall_cons in Hall. destruct Hall as [(filename & Hfn & Hex) Hall].
    cbn [for_each]. unfold bind at 1.
    rewrite process_link_unfold, Hfn.
    rewrite (download_single_pdf_existing E output_dir d _ filename _
               (validated E pdf_link w0)).
    + set (w1 := add_stdout "All PDF links have been processed." _).
      destruct (IH w1) as (w' & Hrun & H1 & H2 & H3 & H4 & H5).
      * unfold w1. simpl. rewrite validated_cwd. exact Hcwd.
      * unfold w1. simpl. rewrite validated_fs. exact Hfs.
      * exact Hall.
      * exists w'. split; [exact Hrun|]. split; [exact H1|]. split; [exact H2|].
        split; [rewrite H3; unfold w1; simpl; apply validated_clock|].
        split; [rewrite H4; unfold w1; simpl; apply validated_download_dir|].
        rewrite H5. unfold w1. simpl. rewrite validated_calls, <- app_assoc.
        reflexivity.
    + apply os_makedirs_exists.
      rewrite (is_dir_ext w (validated E pdf_link w0)); [exact Hdir| |].
      * rewrite validated_cwd. exact Hcwd.
      * rewrite validated_fs. exact Hfs.
    + rewrite validated_files, (file_at_ext w w0) by assumption. exact Hex.
Qed.

(** C7, as the code has it: when the output folder exists and the
    destination of a download is a regular file, [download_single_pdf]
    prints that the file exists and returns: the world is otherwise
    untouched, so the browser is not driven, the clock is not read and
    no file changes.  Hence a run of the download loop over links whose
    files are all in place only asks the validator about each link: it
    navigates nowhere, waits for nothing and changes no file. *)
Theorem existing_target_is_skipped (w : world) :
  is_dir w output_dir = true ->
  (forall url filename,
      is_Some (file_at w (Path.join output_dir filename)) ->
      download_single_pdf E url filename output_dir d w
      = (Ret tt,
         add_stdout ("File already exists: " +:+ Path.join output_dir filename) w))
  /\ (forall pdf_links,
        Forall (already_downloaded E output_dir w) pdf_links ->
        exists w',
          for_each pdf_links (process_link E output_dir d) w = (Ret tt, w')
          /\ fs w' = fs w /\ clock w' = clock w
          /\ calls w' = calls w ++ map ValidateUrl pdf_links).
Proof.
  intros Hdir. split.
  - intros url filename Hex.
    apply download_single_pdf_existing; [|exact Hex].
    apply os_makedirs_exists, Hdir.
  - intros pdf_links Hall.
    destruct (rerun_loop pdf_links w Hdir w eq_refl eq_refl Hall)
      as (w' & Hrun & H1 & H2 & H3 & H4 & H5).
    exists w'. auto.
Qed.

End Links.

(** ** The validation sweep *)

Lemma length_append (s1 s2 : string) :
  String.length (s1 +:+ s2) = (String.length s1 + String.length s2)%nat.
Proof. induction s1 as [|c r IH]; simpl; [reflexivity|]. rewrite IH. reflexivity. Qed.

Section Sweep.

Variable E : Env.

Lemma validate_pdf_file_unfold (file_path content : string) (w : world) :
  file_at w file_path = Some content ->
  validate_pdf_file E file_path w
  = match fitz_document E content with
    | inl e =>
        if is_RuntimeError e
        then (Ret false, add_stdout (open_error_line file_path e)
                           (add_call (FitzOpen file_path) w))
        else (Exc e, add_call (FitzOpen file_path) w)
    | inr 0%nat =>
        (Ret false, add_stdout (no_pages_line file_path)
                      (add_call (FitzOpen file_path) w))
    | inr (S _) => (Ret true, add_call (FitzOpen file_path) w)
    end.
Proof.
  intros Hfile.
  unfold validate_pdf_file, try_except, fitz_open_page_count, log_call, bind,
    print, ret, no_pages_line, open_error_line.
  change (file_at (add_call (FitzOpen file_path) w) file_path)
    with (file_at w file_path).
  rewrite Hfile.
  destruct (fitz_document E content) as [e|[|n]]; reflexivity.
Qed.

Lemma sweep_file_unfold (pdf_file content : string) (w : world) :
  file_at w pdf_file = Some content ->
  sweep_file E pdf_file w
  = match fitz_document E content with
    | inl e =>
        if is_RuntimeError e
        then (Ret tt,
              reported E pdf_file
                (delete_file pdf_file
                   (add_stdout (open_error_line pdf_file e)
                      (add_call (FitzOpen pdf_file) w))))
        else (Exc e, add_call (FitzOpen pdf_file) w)
    | inr 0%nat =>
        (Ret tt,
         reported E pdf_file
           (delete_file pdf_file
              (add_stdout (no_pages_line pdf_file)
                 (add_call (FitzOpen pdf_file) w))))
    | inr (S _) => (Ret tt, reported E pdf_file (add_call (FitzOpen pdf_file) w))
    end.
Proof.
  intros Hfile. unfold sweep_file. unfold bind at 1.
  rewrite (validate_pdf_file_unfold pdf_file content w Hfile).
  unfold reported, when, remove_system_file, os_remove.
  destruct (fitz_document E content) as [e|[|n]].
  - destruct (is_RuntimeError e); [|reflexivity].
    unfold bind, print, ret. cbn [negb].
    change (file_at (add_stdout (open_error_line pdf_file e)
              (add_call (FitzOpen pdf_file) w)) pdf_file)
      with (file_at w pdf_file).
    rewrite Hfile.
    destruct (check_upper_case_letter _); reflexivity.
  - unfold bind, print, ret. cbn [negb].
    change (file_at (add_stdout (no_pages_line pdf_file)
              (add_call (FitzOpen pdf_file) w)) pdf_file)
      with (file_at w pdf_file).
    rewrite Hfile.
    destruct (check_upper_case_letter _); reflexivity.
  - unfold bind, print, ret. cbn [negb].
    destruct (check_upper_case_letter _); reflexivity.
Qed.

Lemma file_at_reported (pdf_file path : string) (w : world) :
  file_at (reported E pdf_file w) path = file_at w path.
Proof. unfold reported. destruct (check_upper_case_letter _); reflexivity. Qed.

Lemma calls_reported (pdf_file : string) (w : world) :
  calls (reported E pdf_file w) = calls w.
Proof. unfold reported. destruct (check_upper_case_letter _); reflexivity. Qed.

Lemma fs_reported (pdf_file : string) (w : world) :
  fs (reported E pdf_file w) = fs w.
Proof. unfold reported. destruct (check_upper_case_letter _); reflexivity. Qed.

(** C5: a file that the sweep visits is classified Corrupt (the
    validator answers [False]) exactly when opening it raises a
    structural error or the document has no page; it is deleted exactly
    in that case, in the same way for both causes, and the file is
    opened a single time. *)
Theorem sweep_deletes_exactly_corrupt (pdf_file content : string) (w : world) :
  file_at w pdf_file = Some content ->
  (fst (validate_pdf_file E pdf_file w) = Ret false <-> corrupt E content)
  /\ (file_at (snd (sweep_file E pdf_file w)) pdf_file = None <-> corrupt E content)
  /\ (corrupt E content ->
      fst (sweep_file E pdf_file w) = Ret tt
      /\ fs (snd (sweep_file E pdf_file w)) = fs (delete_file pdf_file w))
  /\ calls (snd (sweep_file E pdf_file w)) = calls w ++ [FitzOpen pdf_file].
Proof.
  intros Hfile.
  rewrite (validate_pdf_file_unfold pdf_file content w Hfile).
  rewrite (sweep_file_unfold pdf_file content w Hfile).
  destruct (fitz_document E content) as [e|[|n]] eqn:Hdoc.
  - destruct (is_RuntimeError e) eqn:Hcls; cbn [fst snd].
    + assert (Hc : corrupt E content) by (left; eauto).
      rewrite file_at_reported, calls_reported, fs_reported.
      rewrite (file_at_delete_file pdf_file).
      split; [tauto|]. split; [tauto|]. split; [|reflexivity].
      intros _. split; reflexivity.
    + assert (Hnc : ~ corrupt E content).
      { intros [(e' & He' & Hr)|Hz]; congruence. }
      change (file_at (add_call (FitzOpen pdf_file) w) pdf_file)
        with (file_at w pdf_file).
      rewrite Hfile.
      split; [split; [discriminate|tauto]|].
      split; [split; [discriminate|tauto]|].
      split; [tauto|reflexivity].
  - assert (Hc : corrupt E content) by (right; exact Hdoc).
    cbn [fst snd]. rewrite file_at_reported, calls_reported, fs_reported.
    rewrite (file_at_delete_file pdf_file).
    split; [tauto|]. split; [tauto|]. split; [|reflexivity].
    intros _. split; reflexivity.
  - assert (Hnc : ~ corrupt E content).
    { intros [(e' & He' & Hr)|Hz]; congruence. }
    cbn [fst snd]. rewrite file_at_reported, calls_reported.
    change (file_at (add_call (FitzOpen pdf_file) w) pdf_file)
      with (file_at w pdf_file).
    rewrite Hfile.
    split; [split; [discriminate|tauto]|].
    split; [split; [discriminate|tauto]|].
    split; [tauto|reflexivity].
Qed.

Lemma open_error_line_differs (file_path : string) (e : exn) :
  open_error_line file_path e <> file_path.
Proof.
  intros Heq. apply (f_equal String.length) in Heq.
  unfold open_error_line in Heq. rewrite !length_append in Heq.
  simpl in Heq. lia.
Qed.

Lemma no_pages_line_differs (file_path : string) :
  no_pages_line file_path <> file_path.
Proof.
  intros Heq. apply (f_equal String.length) in Heq.
  unfold no_pages_line in Heq. rewrite !length_append in Heq.
  simpl in Heq. lia.
Qed.

(** C4, as the code has it: the report of an upper-case name does not
    look at the classification.  Among the lines that the loop body
    prints for a file, the path of the file appears exactly when its
    file name holds an upper-case letter and the validator did not
    abort; a Corrupt file with such a name is deleted and reported all
    the same. *)
Theorem report_ignores_classification (pdf_file content : string) (w : world) :
  file_at w pdf_file = Some content ->
  exists lines,
    stdout (snd (sweep_file E pdf_file w)) = stdout w ++ lines
    /\ (In pdf_file lines <->
        check_upper_case_letter E (get_filename_and_extension pdf_file) = true
        /\ fst (sweep_file E pdf_file w) = Ret tt)
    /\ (corrupt E content ->
        check_upper_case_letter E (get_filename_and_extension pdf_file) = true ->
        file_at (snd (sweep_file E pdf_file w)) pdf_file = None
        /\ In pdf_file lines).
Proof.
  intros Hfile.
  rewrite (sweep_file_unfold pdf_file content w Hfile). unfold reported.
  pose proof (open_error_line_differs pdf_file) as Herr.
  pose proof (no_pages_line_differs pdf_file) as Hnone.
  destruct (fitz_document E content) as [e|[|n]] eqn:Hdoc.
  - destruct (is_RuntimeError e) eqn:Hcls.
    + destruct (check_upper_case_letter _) eqn:Hup; cbn [fst snd].
      * exists [open_error_line pdf_file e; pdf_file].
        rewrite file_at_add_stdout, (file_at_delete_file pdf_file).
        split; [cbn; rewrite <- app_assoc; reflexivity|].
        assert (In pdf_file [open_error_line pdf_file e; pdf_file])
          by (right; left; reflexivity).
        tauto.
      * exists [open_error_line pdf_file e].
        split; [reflexivity|]. split; [|congruence].
        split; [|intros [? _]; congruence].
        intros [Hl|[]]. destruct (Herr e Hl).
    + assert (Hnc : ~ corrupt E content).
      { intros [(e' & He' & Hr)|Hz]; congruence. }
      exists []. cbn [fst snd]. split; [cbn; rewrite app_nil_r; reflexivity|].
      split; [|tauto]. split; [intros []|intros [_ [=]]].
  - destruct (check_upper_case_letter _) eqn:Hup; cbn [fst snd].
    + exists [no_pages_line pdf_file; pdf_file].
      rewrite file_at_add_stdout, (file_at_delete_file pdf_file).
      split; [cbn; rewrite <- app_assoc; reflexivity|].
      assert (In pdf_file [no_pages_line pdf_file; pdf_file])
        by (right; left; reflexivity).
      tauto.
    + exists [no_pages_line pdf_file].
      split; [reflexivity|]. split; [|congruence].
      split; [|intros [? _]; congruence].
      intros [Hl|[]]. destruct (Hnone Hl).
  - assert (Hnc : ~ corrupt E content).
    { intros [(e' & He' & Hr)|Hz]; congruence. }
    destruct (check_upper_case_letter _) eqn:Hup; cbn [fst snd].
    + exists [pdf_file]. split; [reflexivity|]. split; [|tauto].
      split; [intros _; split; reflexivity|intros _; left; reflexivity].
    + exists []. split; [cbn; rewrite app_nil_r; reflexivity|].
      split; [|tauto]. split; [intros []|intros [? _]; congruence].
Qed.

End Sweep.

(** ** The directory walk *)

Lemma walk_inner_loop (cwd_ root extension : string) (files : list string) :
  forall matched,
    fold_left
      (fun matched file =>
         if Str.endswith file extension
         then matched ++ [Path.abspath cwd_ (Path.join root file)]
         else matched)
      files matched
    = matched
      ++ map (fun file => Path.abspath cwd_ (Path.join root file))
           (List.filter (fun file => Str.endswith file extension) files).
Proof.
  induction files as [|file files IH]; intros matched; simpl.
  - symmetry. apply app_nil_r.
  - rewrite IH. destruct (Str.endswith file extension); [|reflexivity].
    rewrite <- app_assoc. reflexivity.
Qed.

Lemma walk_outer_loop (cwd_ extension : string)
    (walked : list (string * list string)) :
  forall matched_files,
    fold_left
      (fun matched_files '(root, files) =>
         fold_left
           (fun matched file =>
              if Str.endswith file extension
              then matched ++ [Path.abspath cwd_ (Path.join root file)]
              else matched)
           files matched_files)
      walked matched_files
    = matched_files ++ collected cwd_ extension walked.
Proof.
  induction walked as [|[root files] walked IH]; intros matched_files; simpl.
  - symmetry. apply app_nil_r.
  - rewrite IH, walk_inner_loop, <- app_assoc. reflexivity.
Qed.

Lemma walk_collects (system_path extension : string) (w : world) :
  exists walked,
    os_walk system_path w = (Ret walked, w)
    /\ walk_directory_and_extract_given_file_extension system_path extension w
       = (Ret (collected (cwd w) extension walked), w).
Proof.
  unfold walk_directory_and_extract_given_file_extension, bind, os_walk.
  eexists. split; [reflexivity|].
  rewrite walk_outer_loop. reflexivity.
Qed.

Lemma collected_elem (cwd_ extension : string)
    (walked : list (string * list string)) (path : string) :
  In path (collected cwd_ extension walked)
  <-> exists root files file,
        In (root, files) walked /\ In file files
        /\ Str.endswith file extension = true
        /\ path = Path.abspath cwd_ (Path.join root file).
Proof.
  unfold collected. rewrite in_flat_map. split.
  - intros ([root files] & Hin & Hp). apply in_map_iff in Hp.
    destruct Hp as (file & <- & Hf). apply filter_In in Hf.
    destruct Hf as [Hf He]. exists root, files, file. auto.
  - intros (root & files & file & Hin & Hf & He & ->).
    exists (root, files). split; [exact Hin|].
    apply in_map_iff. exists file. split; [reflexivity|].
    apply filter_In. auto.
Qed.

(** *** Suffix tests *)

Lemma substring_whole (s : string) : substring 0 (String.length s) s = s.
Proof. induction s as [|c r IH]; simpl; [reflexivity|]. rewrite IH. reflexivity. Qed.

Lemma substring_append_suffix (stem suffix : string) :
  substring (String.length stem) (String.length suffix) (stem +:+ suffix) = suffix.
Proof.
  induction stem as [|c r IH]; simpl.
  - apply substring_whole.
  - exact IH.
Qed.

Lemma endswith_append (stem suffix suffix' : string) :
  String.length suffix = String.length suffix' ->
  Str.endswith (stem +:+ suffix) suffix' = String.eqb suffix suffix'.
Proof.
  intros Hlen. unfold Str.endswith. rewrite length_append, <- Hlen.
  replace (String.length stem + String.length suffix - String.length suffix)%nat
    with (String.length stem) by lia.
  rewrite substring_append_suffix.
  replace (String.length suffix <=? String.length stem + String.length suffix)%nat
    with true by (symmetry; apply Nat.leb_le; lia).
  reflexivity.
Qed.

Lemma lower_append (s1 s2 : string) :
  Str.lower (s1 +:+ s2) = Str.lower s1 +:+ Str.lower s2.
Proof. induction s1 as [|c r IH]; simpl; [reflexivity|]. rewrite IH. reflexivity. Qed.

Lemma lower_length (s : string) : String.length (Str.lower s) = String.length s.
Proof. induction s as [|c r IH]; simpl; [reflexivity|]. rewrite IH. reflexivity. Qed.

(** a name whose extension is [.pdf] in another case, as [.PDF] or [.Pdf] *)
Lemma other_case_extension (stem extension : string) :
  Str.lower extension = ".pdf" -> extension <> ".pdf" ->
  Str.endswith (stem +:+ extension) ".pdf" = false
  /\ is_pdf_name (stem +:+ extension) = true.
Proof.
  intros Hlow Hne.
  assert (Hlen : String.length extension = String.length ".pdf")
    by (rewrite <- Hlow; symmetry; apply lower_length).
  split.
  - rewrite (endswith_append stem extension ".pdf" Hlen).
    apply String.eqb_neq. exact Hne.
  - unfold is_pdf_name. rewrite lower_append, Hlow.
    rewrite endswith_append by reflexivity. reflexivity.
Qed.

(** *** What the sweep touches *)

Lemma dir_files_delete_file (path dir name : string) (w : world) :
  dir_files (delete_file path w) dir !! name = dir_files w dir !! name
  \/ (dir_files (delete_file path w) dir !! name = None
      /\ dir = Path.dirname (Path.abspath (cwd w) path)
      /\ name = Path.basename (Path.abspath (cwd w) path)).
Proof.
  unfold delete_file, dir_files. cbn [fs set_fs].
  destruct (decide (Path.dirname (Path.abspath (cwd w) path) = dir)) as [<-|Hd].
  - rewrite lookup_insert_eq. cbn [default from_option id].
    destruct (decide (Path.basename (Path.abspath (cwd w) path) = name)) as [<-|Hn].
    + right. rewrite lookup_delete_eq. auto.
    + left. rewrite lookup_delete_ne by exact Hn. reflexivity.
  - left. rewrite lookup_insert_ne by exact Hd. reflexivity.
Qed.

Section SweepLoop.

Variable E : Env.

Lemma sweep_file_missing (pdf_file : string) (w : world) :
  file_at w pdf_file = None ->
  exists e e',
    sweep_file E pdf_file w
    = (Exc e', add_stdout (open_error_line pdf_file e)
                 (add_call (FitzOpen pdf_file) w)).
Proof.
  intros Hfile.
  unfold sweep_file, validate_pdf_file, try_except, fitz_open_page_count,
    log_call, bind, print, ret, when, remove_system_file, os_remove.
  rewrite file_at_add_call, Hfile.
  change (is_RuntimeError (Exn RuntimeError ("no such file: '" +:+ pdf_file +:+ "'")))
    with true.
  cbn beta iota. cbn [negb].
  rewrite file_at_add_stdout, file_at_add_call, Hfile.
  eexists (Exn RuntimeError _), _. reflexivity.
Qed.

Lemma about_head (f : string) (rest : list string) (line : string) :
  about [f] line -> about (f :: rest) line.
Proof.
  intros (g & [Hg|[]] & H). exists g. split; [left; exact Hg|exact H].
Qed.

Lemma about_tail (f : string) (rest : list string) (line : string) :
  about rest line -> about (f :: rest) line.
Proof. intros (g & Hin & H). exists g. split; [right; exact Hin|exact H]. Qed.

(** one file: a single call of the parser, at most the deletion of the
    file, and lines about it *)
Lemma sweep_file_effects (pdf_file : string) (w : world) :
  let w' := snd (sweep_file E pdf_file w) in
  cwd w' = cwd w
  /\ calls w' = calls w ++ [FitzOpen pdf_file]
  /\ (fs w' = fs w \/ fs w' = fs (delete_file pdf_file w))
  /\ exists lines, stdout w' = stdout w ++ lines /\ Forall (about [pdf_file]) lines.
Proof.
  assert (Hself : about [pdf_file] pdf_file)
    by (exists pdf_file; split; [left; reflexivity|left; reflexivity]).
  assert (Hnone : about [pdf_file] (no_pages_line pdf_file))
    by (exists pdf_file; split; [left; reflexivity|right; left; reflexivity]).
  assert (Herr : forall e, about [pdf_file] (open_error_line pdf_file e))
    by (intros e; exists pdf_file; split; [left; reflexivity|right; right; eauto]).
  destruct (file_at w pdf_file) as [content|] eqn:Hfile.
  - rewrite (sweep_file_unfold E pdf_file content w Hfile). unfold reported.
    destruct (fitz_document E content) as [e|[|n]].
    + destruct (is_RuntimeError e).
      * destruct (check_upper_case_letter _); cbn.
        -- repeat split; auto.
           exists [open_error_line pdf_file e; pdf_file].
           rewrite <- app_assoc. split; [reflexivity|]. repeat constructor; auto.
        -- repeat split; auto.
           exists [open_error_line pdf_file e].
           split; [reflexivity|]. repeat constructor; auto.
      * cbn. repeat split; auto. exists []. rewrite app_nil_r. auto.
    + destruct (check_upper_case_letter _); cbn.
      * repeat split; auto.
        exists [no_pages_line pdf_file; pdf_file].
        rewrite <- app_assoc. split; [reflexivity|]. repeat constructor; auto.
      * repeat split; auto.
        exists [no_pages_line pdf_file].
        split; [reflexivity|]. repeat constructor; auto.
    + destruct (check_upper_case_letter _); cbn.
      * repeat split; auto. exists [pdf_file].
        split; [reflexivity|]. repeat constructor; auto.
      * repeat split; auto. exists []. rewrite app_nil_r. auto.
  - destruct (sweep_file_missing pdf_file w Hfile) as (e & e' & ->). cbn.
    repeat split; auto. exists [open_error_line pdf_file e].
    split; [reflexivity|]. repeat constructor; auto.
Qed.

Lemma sweep_loop_confined (files : list string) :
  forall w, sweep_confined files w (snd (for_each files (sweep_file E) w)).
Proof.
  induction files as [|f files IH]; intros w.
  - cbn. split; [reflexivity|]. split.
    + exists [], []. split; [reflexivity|]. cbn. symmetry. apply app_nil_r.
    + split; [auto|]. exists []. rewrite app_nil_r. auto.
  - cbn [for_each]. unfold bind at 1.
    pose proof (sweep_file_effects f w) as (Hcwd & Hcalls & Hfs & lines & Hout & Hlines).
    assert (Hdir : forall dir name,
               dir_files (snd (sweep_file E f w)) dir !! name
               = dir_files w dir !! name
               \/ (dir_files (snd (sweep_file E f w)) dir !! name = None
                   /\ dir = Path.dirname (Path.abspath (cwd w) f)
                   /\ name = Path.basename (Path.abspath (cwd w) f))).
    { intros dir name. unfold dir_files at 1 3.
      destruct Hfs as [-> | ->]; [left; reflexivity|].
      apply dir_files_delete_file. }
    destruct (sweep_file E f w) as [[[]|e|] w1]; cbn [fst snd] in *.
    + destruct (IH w1) as (Icwd & (visited & unvisited & Hsplit & Icalls)
                           & Idir & ilines & Iout & Ilines).
      split; [congruence|]. split; [|split].
      * exists (f :: visited), unvisited. split; [cbn; congruence|].
        rewrite Icalls, Hcalls, <- app_assoc. reflexivity.
      * intros dir name.
        destruct (Idir dir name) as [Heq|(Hgone & g & Hg & Hd & Hn)].
        -- rewrite Heq. destruct (Hdir dir name) as [?|(? & ? & ?)]; [auto|].
           right. split; [assumption|]. exists f. split; [left; reflexivity|auto].
        -- right. split; [exact Hgone|]. exists g.
           rewrite Hcwd in Hd, Hn. split; [right; exact Hg|auto].
      * exists (lines ++ ilines). rewrite Iout, Hout, <- app_assoc.
        split; [reflexivity|]. apply Forall_app. split.
        -- eapply Forall_impl; [exact Hlines|apply about_head].
        -- eapply Forall_impl; [exact Ilines|apply about_tail].
    + split; [exact Hcwd|]. split; [|split].
      * exists [f], files. split; [reflexivity|exact Hcalls].
      * intros dir name. destruct (Hdir dir name) as [?|(? & ? & ?)]; [auto|].
        right. split; [assumption|]. exists f. split; [left; reflexivity|auto].
      * exists lines. split; [exact Hout|].
        eapply Forall_impl; [exact Hlines|apply about_head].
    + split; [exact Hcwd|]. split; [|split].
      * exists [f], files. split; [reflexivity|exact Hcalls].
      * intros dir name. destruct (Hdir dir name) as [?|(? & ? & ?)]; [auto|].
        right. split; [assumption|]. exists f. split; [left; reflexivity|auto].
      * exists lines. split; [exact Hout|].
        eapply Forall_impl; [exact Hlines|apply about_head].
Qed.

(** C10: the walk compares the end of an entry name with the extension
    as written: it returns the absolute paths of exactly the entries,
    below the directory, whose name ends in the extension.  The sweep of
    [main] handles the files collected for [.pdf] and nothing else: the
    parser is called on them only, the only entries that change are
    collected ones, which disappear, and every line printed is about one
    of them.  A name that ends in [.PDF], or in [.pdf] written in any
    other case, fails the test of the walk although it passes the test
    of the download wait. *)
Theorem sweep_matches_extension_as_written (w : world) :
  (forall system_path extension,
      exists walked,
        os_walk system_path w = (Ret walked, w)
        /\ walk_directory_and_extract_given_file_extension system_path
             extension w
           = (Ret (collected (cwd w) extension walked), w)
        /\ forall path,
            In path (collected (cwd w) extension walked)
            <-> exists root files file,
                  In (root, files) walked /\ In file files
                  /\ Str.endswith file extension = true
                  /\ path = Path.abspath (cwd w) (Path.join root file))
  /\ (exists walked,
        os_walk "./PDFs" w = (Ret walked, w)
        /\ sweep_confined (collected (cwd w) ".pdf" walked) w
             (snd (sweep_phase E w)))
  /\ (forall stem extension,
        Str.lower extension = ".pdf" -> extension <> ".pdf" ->
        Str.endswith (stem +:+ extension) ".pdf" = false
        /\ is_pdf_name (stem +:+ extension) = true).
Proof.
  split; [|split].
  - intros system_path extension.
    destruct (walk_collects system_path extension w) as (walked & Hwalk & Hcol).
    exists walked. split; [exact Hwalk|]. split; [exact Hcol|].
    intros path. apply collected_elem.
  - destruct (walk_collects "./PDFs" ".pdf" w) as (walked & Hwalk & Hcol).
    exists walked. split; [exact Hwalk|].
    unfold sweep_phase. unfold bind at 1. rewrite Hcol.
    apply sweep_loop_confined.
  - apply other_case_extension.
Qed.

End SweepLoop.

(** ** Runs on concrete inputs *)


(** C2 as stated fails: a URL whose path ends in a slash gives the empty
    file name, which does not match the pattern. *)
Lemma url_without_last_segment_gives_empty_name :
  url_to_filename Demo.env "https://www.biokleen.com/sds/" = inr ""
  /\ matches_filename_pattern "" = false.
Proof. vm_compute. split; reflexivity. Qed.

Lemma sheet1_filename_charset :
  Str.forallb filename_char "sheet1.pdf" = true
  /\ Str.contains "/" "sheet1.pdf" = false
  /\ (matches_filename_pattern "sheet1.pdf" = true <-> "sheet1.pdf" <> "").
Proof.
  destruct (url_to_filename_charset Demo.env
              "https://www.biokleen.com/sds/sheet1.PDF" "sheet1.pdf")
    as (_ & Hclass).
  - vm_compute. reflexivity.
  - exact Hclass.
Defined.

(** an upper-case letter is lower-cased before the class is applied, so
    it stays; a segment without any character of the class leaves the
    empty name *)
Example upper_case_segment_is_kept :
  url_to_filename Demo.env "https://www.biokleen.com/sds/ABC" = inr "abc"
  /\ url_to_filename Demo.env "https://www.biokleen.com/sds/%20%21" = inr "2021"
  /\ url_to_filename Demo.env "https://www.biokleen.com/sds/(~)" = inr "".
Proof. vm_compute. repeat split. Qed.

(** the scenario of the specification: an empty snapshot and a directory
    that gains [doc.pdf] before the deadline *)
Lemma doc_pdf_is_found :
  exists w',
    wait_for_pdf_download "/srv/app/PDFs" ∅ 3 Demo.downloading
    = (Ret "/srv/app/PDFs/doc.pdf", w').
Proof.
  destruct (wait_for_pdf_download_outcome "/srv/app/PDFs" ∅ 3 Demo.downloading
              (Tick 0 ∅)
              [Tick 1000000000 {[ "doc.pdf.crdownload" := "%PD" ]}]
              (Tick 2000000000 {[ "doc.pdf" := "%PDF-1.4" ]}) [])
    as [Hfound _].
  - vm_compute. reflexivity.
  - reflexivity.
  - constructor; [|constructor]. split; [vm_compute; reflexivity|].
    intros f Hf _. cbn [dir_now] in Hf. rewrite dom_singleton_L in Hf.
    apply elem_of_singleton in Hf. subst f. vm_compute. reflexivity.
  - destruct Hfound as (f & Hf & _ & _ & Hrun).
    + vm_compute. reflexivity.
    + exists "doc.pdf". cbn [dir_now]. rewrite dom_singleton_L.
      split; [apply elem_of_singleton; reflexivity|].
      split; [apply not_elem_of_empty|]. vm_compute. reflexivity.
    + cbn [dir_now] in Hf. rewrite dom_singleton_L in Hf.
      apply elem_of_singleton in Hf. subst f. eexists. exact Hrun.
Defined.

(** the other scenario of the specification: no new file before the
    deadline *)
Example nothing_arrives_times_out :
  fst (wait_for_pdf_download "/srv/app/PDFs" ∅ 3 Demo.idle)
  = Exc (Exn TimeoutError "PDF download timed out.").
Proof. vm_compute. reflexivity. Qed.

(** [SHEET.PDF] is no PDF document and has an upper-case name, yet the
    sweep leaves it in place, opens nothing and prints nothing, whereas
    the download wait would take it for a PDF *)
Example upper_case_extension_is_not_swept :
  sweep_phase Demo.env Demo.shouting = (Ret tt, Demo.shouting)
  /\ is_pdf_name "SHEET.PDF" = true.
Proof. vm_compute. split; reflexivity. Qed.

(** C4 as stated fails: [Bad.pdf] does not open, so it is classified
    Corrupt and deleted, and its path is printed for its upper-case
    letter all the same. *)
Lemma corrupt_file_with_uppercase_name_is_reported :
  fst (validate_pdf_file Demo.env "/srv/app/PDFs/Bad.pdf" Demo.swept) = Ret false
  /\ file_at (snd (sweep_file Demo.env "/srv/app/PDFs/Bad.pdf" Demo.swept))
       "/srv/app/PDFs/Bad.pdf" = None
  /\ stdout (snd (sweep_file Demo.env "/srv/app/PDFs/Bad.pdf" Demo.swept))
     = ["'/srv/app/PDFs/Bad.pdf' is corrupt or invalid: Failed to open file";
        "/srv/app/PDFs/Bad.pdf"].
Proof. vm_compute. repeat split. Qed.

Lemma report_of_bad_pdf :
  exists lines,
    stdout (snd (sweep_file Demo.env "/srv/app/PDFs/Bad.pdf" Demo.swept))
    = stdout Demo.swept ++ lines
    /\ In "/srv/app/PDFs/Bad.pdf" lines.
Proof.
  destruct (report_ignores_classification Demo.env "/srv/app/PDFs/Bad.pdf" "junk"
              Demo.swept) as (lines & Hout & _ & Hboth).
  - vm_compute. reflexivity.
  - exists lines. split; [exact Hout|]. apply Hboth.
    + left. eexists. split; vm_compute; reflexivity.
    + vm_compute. reflexivity.
Defined.

Lemma bad_pdf_is_deleted :
  file_at (snd (sweep_file Demo.env "/srv/app/PDFs/Bad.pdf" Demo.swept))
    "/srv/app/PDFs/Bad.pdf" = None.
Proof.
  destruct (sweep_deletes_exactly_corrupt Demo.env "/srv/app/PDFs/Bad.pdf" "junk"
              Demo.swept) as (_ & Hdeleted & _).
  - vm_compute. reflexivity.
  - apply Hdeleted. left. eexists. split; vm_compute; reflexivity.
Defined.

(** C6 as stated fails: the link [[x.pdf] makes the derivation of the file
    name raise [ValueError], outside the handler: the loop stops before
    the next link, the run ends with the exception and the sweep does not
    take place. *)
Lemma bad_link_aborts_the_run :
  fst (main (Demo.env_with_page Demo.bad_link_page) Demo.swept)
  = Exc (Exn ValueError "Invalid IPv6 URL")
  /\ calls (snd (main (Demo.env_with_page Demo.bad_link_page) Demo.swept))
     = [Launch HtmlDriver; Get HtmlDriver page_url; Refresh HtmlDriver;
        Quit HtmlDriver; Launch DownloadDriver; ValidateUrl "[x.pdf";
        Quit DownloadDriver]
  /\ fst (for_each ["[x.pdf"; "/sds/sheet1.PDF"]
            (process_link Demo.env "/srv/app/PDFs" DownloadDriver) Demo.idle)
     = Exc (Exn ValueError "Invalid IPv6 URL")
  /\ calls (snd (for_each ["[x.pdf"; "/sds/sheet1.PDF"]
                   (process_link Demo.env "/srv/app/PDFs" DownloadDriver)
                   Demo.idle))
     = [ValidateUrl "[x.pdf"].
Proof. vm_compute. repeat split. Qed.

Lemma broken_link_is_contained :
  exists w',
    for_each ["/sds/broken.pdf"; "/sds/sheet1.PDF"]
      (process_link Demo.env "/srv/app/PDFs" DownloadDriver) Demo.idle
    = for_each ["/sds/sheet1.PDF"]
        (process_link Demo.env "/srv/app/PDFs" DownloadDriver) w'
    /\ In "Error downloading PDF: net::ERR_CONNECTION_RESET" (stdout w').
Proof.
  destruct (download_failure_is_contained Demo.env "/srv/app/PDFs" DownloadDriver
              "/sds/broken.pdf" "broken.pdf" ["/sds/sheet1.PDF"] Demo.idle)
    as [Hcontained _].
  - vm_compute. reflexivity.
  - left. vm_compute. discriminate.
  - destruct (Hcontained
                (snd (os_makedirs "/srv/app/PDFs"
                        (validated Demo.env "/sds/broken.pdf" Demo.idle))))
      as (w' & _ & Hloop & Hline & _).
    + vm_compute. reflexivity.
    + exists w'. split; [exact Hloop|].
      rewrite (Hline (Exn WebDriverException "net::ERR_CONNECTION_RESET")
                 (snd (download_attempt Demo.env
                         "https://www.biokleen.com/sds/broken.pdf"
                         "/srv/app/PDFs/broken.pdf" "/srv/app/PDFs" DownloadDriver
                         (snd (os_makedirs "/srv/app/PDFs"
                                 (validated Demo.env "/sds/broken.pdf"
                                    Demo.idle)))))).
      * cbn [stdout add_stdout]. apply in_or_app. left. apply in_or_app.
        right. left. reflexivity.
      * vm_compute. reflexivity.
      * vm_compute. reflexivity.
Defined.

(** the output folder cannot be made where a regular file stands: the
    exception of [os.makedirs] leaves [download_single_pdf] and ends the
    loop at the first link *)
Example file_in_place_of_the_folder_ends_the_loop :
  for_each ["/sds/sheet1.PDF"; "/sds/other.pdf"]
    (process_link Demo.env "/srv/app/PDFs" DownloadDriver) Demo.blocked
  = (Exc (Exn FileExistsError "[Errno 17] File exists: '/srv/app/PDFs'"),
     validated Demo.env "/sds/sheet1.PDF" Demo.blocked).
Proof. vm_compute. reflexivity. Qed.

(** C7 as stated fails: a link whose path ends in a slash gives the empty
    file name, for which the destination is the output folder itself.
    The destination exists, yet it is no regular file: the browser is
    driven, the wait takes place, the document is downloaded into the
    folder, and the relocation fails because the name is taken. *)
Lemma folder_as_target_is_downloaded_again :
  pdf_href "/sds/?f=x.pdf" = true
  /\ url_to_filename Demo.env "https://www.biokleen.com/sds/?f=x.pdf" = inr ""
  /\ path_exists Demo.revisited (Path.join "/srv/app/PDFs" "") = true
  /\ calls (snd (download_single_pdf Demo.env
                   "https://www.biokleen.com/sds/?f=x.pdf" "" "/srv/app/PDFs"
                   DownloadDriver Demo.revisited))
     = [Get DownloadDriver "https://www.biokleen.com/sds/?f=x.pdf"]
  /\ clock (snd (download_single_pdf Demo.env
                   "https://www.biokleen.com/sds/?f=x.pdf" "" "/srv/app/PDFs"
                   DownloadDriver Demo.revisited))
     = []
  /\ stdout (snd (download_single_pdf Demo.env
                    "https://www.biokleen.com/sds/?f=x.pdf" "" "/srv/app/PDFs"
                    DownloadDriver Demo.revisited))
     = ["Starting download from: https://www.biokleen.com/sds/?f=x.pdf";
        "Error downloading PDF: Destination path '/srv/app/PDFs/doc.pdf' already exists"]
  /\ file_at Demo.revisited "/srv/app/PDFs/doc.pdf" = None
  /\ file_at (snd (download_single_pdf Demo.env
                     "https://www.biokleen.com/sds/?f=x.pdf" "" "/srv/app/PDFs"
                     DownloadDriver Demo.revisited))
       "/srv/app/PDFs/doc.pdf"
     = Some "%PDF-1.4".
Proof. vm_compute. repeat split. Qed.

Lemma existing_sheet_is_skipped :
  download_single_pdf Demo.env "https://www.biokleen.com/sds/sheet1.PDF"
    "sheet1.pdf" "/srv/app/PDFs" DownloadDriver Demo.populated
  = (Ret tt,
     add_stdout "File already exists: /srv/app/PDFs/sheet1.pdf" Demo.populated).
Proof.
  destruct (existing_target_is_skipped Demo.env "/srv/app/PDFs" DownloadDriver
              Demo.populated) as [Hskip _].
  - vm_compute. reflexivity.
  - apply Hskip. vm_compute. eauto.
Defined.

(** the file name [..] passes the character class: the destination is
    then the directory above the output folder, and the document is moved
    into that directory, out of the folder *)
Example dotdot_name_leaves_the_folder :
  url_to_filename Demo.env "https://www.biokleen.com/sds/..?f=x.pdf" = inr ".."
  /\ stdout (snd (download_single_pdf Demo.env
                    "https://www.biokleen.com/sds/..?f=x.pdf" ".." "/srv/app/PDFs"
                    DownloadDriver Demo.revisited))
     = ["Starting download from: https://www.biokleen.com/sds/..?f=x.pdf";
        "Download complete: /srv/app/PDFs/.."]
  /\ file_at (snd (download_single_pdf Demo.env
                     "https://www.biokleen.com/sds/..?f=x.pdf" ".." "/srv/app/PDFs"
                     DownloadDriver Demo.revisited))
       "/srv/app/doc.pdf"
     = Some "%PDF-1.4".
Proof. vm_compute. repeat split. Qed.

(** ** Further properties of the program *)

(** *** Deduplication *)

(** X1: the deduplicated list has no repetition and holds exactly the
    items of the given list. *)
Theorem remove_duplicates_keeps_each_item_once (provided_slice : list string) :
  NoDup (remove_duplicates_from_slice provided_slice)
  /\ forall item,
      In item (remove_duplicates_from_slice provided_slice)
      <-> In item provided_slice.
Proof.
  unfold remove_duplicates_from_slice. split.
  - apply NoDup_elements.
  - intros item. rewrite <- !list_elem_of_In, elem_of_elements.
    apply elem_of_list_to_set.
Qed.

(** X2: deduplicating twice gives the items of deduplicating once, and a
    list without repetition only gets reordered: in both cases the result
    is a permutation, the order being that of the set. *)
Theorem remove_duplicates_is_idempotent (provided_slice : list string) :
  remove_duplicates_from_slice (remove_duplicates_from_slice provided_slice)
  ≡ₚ remove_duplicates_from_slice provided_slice
  /\ (NoDup provided_slice ->
      remove_duplicates_from_slice provided_slice ≡ₚ provided_slice).
Proof.
  assert (Hnodup : forall l : list string,
             NoDup l -> remove_duplicates_from_slice l ≡ₚ l).
  { intros l Hl. unfold remove_duplicates_from_slice.
    apply NoDup_Permutation; [apply NoDup_elements|exact Hl|].
    intros x. rewrite elem_of_elements. apply elem_of_list_to_set. }
  split; [|apply Hnodup].
  apply Hnodup. unfold remove_duplicates_from_slice. apply NoDup_elements.
Qed.

(** *** The name of the target file *)

Lemma split_nonempty (sep : ascii) (s : string) : Str.split sep s <> [].
Proof.
  destruct s as [|c r]; simpl; [discriminate|].
  destruct (Ascii.eqb c sep); [discriminate|].
  destruct (Str.split sep r); discriminate.
Qed.

Lemma split_append_sep (sep : ascii) (a b : string) :
  Str.split sep (a +:+ String sep b) = Str.split sep a ++ Str.split sep b.
Proof.
  induction a as [|c r IH]; simpl.
  - rewrite Ascii.eqb_refl. reflexivity.
  - destruct (Ascii.eqb c sep); [rewrite IH; reflexivity|].
    rewrite IH. pose proof (split_nonempty sep r) as Hne.
    destruct (Str.split sep r) as [|w ws]; [contradiction|reflexivity].
Qed.

Lemma split_without_sep (sep : ascii) (s : string) :
  Str.contains sep s = false -> Str.split sep s = [s].
Proof.
  unfold Str.contains. induction s as [|c r IH]; simpl; [reflexivity|].
  intros [Hc Hr]%orb_false_elim. rewrite Ascii.eqb_sym, Hc, (IH Hr). reflexivity.
Qed.

Lemma last_append (l1 l2 : list string) :
  l2 <> [] -> Str.last (l1 ++ l2) = Str.last l2.
Proof.
  intros Hne. unfold Str.last. induction l1 as [|x l1 IH]; [reflexivity|].
  simpl. destruct (l1 ++ l2) eqn:Happ; [|exact IH].
  destruct l1; [simpl in Happ; contradiction|discriminate].
Qed.

Lemma basename_after_slash (a b : string) :
  Str.contains "/" b = false -> Path.basename (a +:+ String "/" b) = b.
Proof.
  intros Hb. unfold Path.basename.
  rewrite split_append_sep, (split_without_sep "/" b Hb).
  apply last_append. discriminate.
Qed.

Lemma endswith_slash (s : string) :
  Str.endswith s "/" = true -> exists p, s = p +:+ "/".
Proof.
  unfold Str.endswith. simpl String.length.
  induction s as [|c r IH]; [discriminate|].
  destruct r as [|c' r'].
  - simpl. destruct (Ascii.eqb_spec c "/") as [->|Hne]; [|discriminate].
    intros _. exists "". reflexivity.
  - change (String.length (String c (String c' r')))
      with (S (String.length (String c' r'))).
    replace (S (String.length (String c' r')) - 1)%nat
      with (S (String.length (String c' r') - 1))%nat by (simpl; lia).
    intros H. destruct IH as [p Hp].
    + simpl in H |- *. exact H.
    + exists (String c p). rewrite Hp. reflexivity.
Qed.

Lemma append_assoc (a b c : string) : (a +:+ b) +:+ c = a +:+ (b +:+ c).
Proof.
  induction a as [|x a IH]; [reflexivity|].
  change (String x ((a +:+ b) +:+ c) = String x (a +:+ (b +:+ c))).
  rewrite IH. reflexivity.
Qed.

(** joining a directory and a name without slash, then taking the file
    name, gives the name back *)
Lemma basename_join (folder name : string) :
  Str.contains "/" name = false ->
  Path.basename (Path.join folder name) = name.
Proof.
  intros Hname. unfold Path.join.
  assert (Hstart : Str.startswith name "/" = false).
  { destruct name as [|c r]; [reflexivity|].
    unfold Str.contains in Hname. cbn [Str.existsb] in Hname.
    apply orb_false_elim in Hname. destruct Hname as [Hc _].
    apply Ascii.eqb_neq in Hc. unfold Str.startswith. cbn [String.prefix].
    destruct (ascii_dec "/" c); [contradiction|reflexivity]. }
  rewrite Hstart.
  destruct (String.eqb folder "") eqn:Hfolder; cbn [orb].
  - apply String.eqb_eq in Hfolder. subst folder. change ("" +:+ name) with name.
    unfold Path.basename. rewrite (split_without_sep "/" name Hname). reflexivity.
  - destruct (Str.endswith folder "/") eqn:Hend.
    + destruct (endswith_slash folder Hend) as [p ->].
      rewrite append_assoc. apply basename_after_slash. exact Hname.
    + apply basename_after_slash. exact Hname.
Qed.

Section TargetName.

Variable E : Env.

(** X3: the target path that [download_single_pdf] builds from a derived
    file name has that very name as its file name, and the name holds no
    upper-case letter: the sweep never reports a file for the name the
    downloader gave it. *)
Theorem derived_name_is_never_reported (url name output_folder : string) :
  url_to_filename E url = inr name ->
  get_filename_and_extension (Path.join output_folder name) = name
  /\ check_upper_case_letter E
       (get_filename_and_extension (Path.join output_folder name)) = false.
Proof.
  intros Hname.
  destruct (url_to_filename_unfold E url name Hname) as (path & _ & ->).
  set (cleaned := Str.filter filename_char
                    (py_lower E (Str.last (Str.split "/" path)))).
  assert (Hall : Str.forallb filename_char cleaned = true) by apply filter_forallb.
  assert (Hslash : Str.contains "/" cleaned = false).
  { apply (forallb_existsb_false filename_char); [|exact Hall].
    apply filename_char_not_slash. }
  unfold get_filename_and_extension. rewrite (basename_join _ _ Hslash).
  split; [reflexivity|].
  unfold check_upper_case_letter, Str.is_ascii.
  rewrite (forallb_impl filename_char _ cleaned filename_char_ascii Hall).
  apply (forallb_existsb_false filename_char); [|exact Hall].
  apply filename_char_not_upper.
Qed.

End TargetName.

(** *** What the wait can return *)

Lemma wait_loop_sound (folder : string) (before : gset string) (deadline : Z)
    (fuel : nat) :
  forall w path w',
    wait_loop fuel folder before deadline w = (Ret path, w') ->
    exists f, path = Path.join folder f /\ (f ∉ before) /\ is_pdf_name f = true
              /\ (f ∈ dom (dir_files w' (Path.abspath (cwd w') folder))).
Proof.
  induction fuel as [|fuel IH]; intros w path w'; [discriminate|].
  cbn [wait_loop]. unfold bind at 1.
  destruct (time_time w) as [[now| |] w1]; try discriminate.
  destruct (now <? deadline)%Z; [|discriminate].
  unfold bind at 1. unfold os_listdir at 1.
  destruct (is_dir w1 folder); [|destruct (bool_decide _); discriminate].
  rewrite listing_set.
  fold (new_pdf_files before (dir_files w1 (Path.abspath (cwd w1) folder))).
  destruct (new_pdf_files before _) as [|f l] eqn:Hnew; [apply IH|].
  intros [= <- <-]. exists f.
  assert (Hin : In f (new_pdf_files before
                       (dir_files w1 (Path.abspath (cwd w1) folder))))
    by (rewrite Hnew; left; reflexivity).
  apply new_pdf_files_elem in Hin. destruct Hin as (Hd & Hb & Hp). auto.
Qed.

(** X4: whatever happens in the download directory, a path that the wait
    returns names an entry of the directory that is listed at that moment,
    is absent from the snapshot and ends in [.pdf] in some case: never a
    file that was there before, never a name with another ending such as
    the [.crdownload] of a download in progress. *)
Theorem wait_returns_only_new_pdf (folder : string) (before : gset string)
    (timeout_seconds : Z) (w : world) (path : string) (w' : world) :
  wait_for_pdf_download folder before timeout_seconds w = (Ret path, w') ->
  exists f, path = Path.join folder f /\ (f ∉ before) /\ is_pdf_name f = true
            /\ (f ∈ dom (dir_files w' (Path.abspath (cwd w') folder))).
Proof.
  unfold wait_for_pdf_download, bind.
  destruct (time_time w) as [[now| |] w1]; try discriminate.
  apply wait_loop_sound.
Qed.

(** *** Saving the page *)

Section SaveHtml.

Variables (E : Env) (url output_file : string) (d : driver).


Lemma save_html_fails (w : world) (e : exn) :
  load_fails E d url e ->
  save_html_with_selenium E url output_file d w
  = if is_TimeoutException e
    then (Ret tt, add_stdout (timeout_line url) (tried_load E d url w))
    else (Exc e, tried_load E d url w).
Proof.
  intros Hfail.
  unfold save_html_with_selenium, try_except, driver_get, driver_refresh,
    append_write_to_file, open_append, bind, log_call, print, ret, raise,
    tried_load, timeout_line.
  destruct Hfail as [Hget|[Hget Href]]; rewrite Hget; [|rewrite Href];
    destruct (is_TimeoutException e); reflexivity.
Qed.

Lemma tried_load_fs (w : world) : fs (tried_load E d url w) = fs w.
Proof. unfold tried_load. destruct (driver_get_raises E d url); reflexivity. Qed.

Lemma tried_load_stdout (w : world) : stdout (tried_load E d url w) = stdout w.
Proof. unfold tried_load. destruct (driver_get_raises E d url); reflexivity. Qed.

Lemma tried_load_file_at (w : world) (path : string) :
  file_at (tried_load E d url w) path = file_at w path.
Proof. unfold tried_load. destruct (driver_get_raises E d url); reflexivity. Qed.

Lemma tried_load_calls (w : world) :
  exists tried,
    calls (tried_load E d url w) = calls w ++ tried
    /\ (tried = [Get d url] \/ tried = [Get d url; Refresh d]).
Proof.
  unfold tried_load. destruct (driver_get_raises E d url).
  - exists [Get d url]. split; [reflexivity|left; reflexivity].
  - exists [Get d url; Refresh d]. cbn. rewrite <- app_assoc.
    split; [reflexivity|right; reflexivity].
Qed.

(** X7: when the page load fails, no file changes.  A [TimeoutException]
    is swallowed: the function prints the timeout line and returns
    normally; any other exception leaves the function, and nothing is
    printed. *)
Theorem save_html_failure_writes_nothing (w : world) (e : exn) :
  load_fails E d url e ->
  fs (snd (save_html_with_selenium E url output_file d w)) = fs w
  /\ fst (save_html_with_selenium E url output_file d w)
     = (if is_TimeoutException e then Ret tt else Exc e)
  /\ stdout (snd (save_html_with_selenium E url output_file d w))
     = stdout w ++ (if is_TimeoutException e then [timeout_line url] else []).
Proof.
  intros Hfail. rewrite (save_html_fails w e Hfail).
  destruct (is_TimeoutException e); cbn [fst snd].
  - cbn. rewrite tried_load_fs, tried_load_stdout. auto.
  - rewrite tried_load_fs, tried_load_stdout, app_nil_r. auto.
Qed.

End SaveHtml.

(** *** A download that completes *)

Section Completed.

Variables (E : Env) (output_folder : string) (d : driver).





End Completed.

(** *** Validation *)

Section Validation.

Variable E : Env.

(** X9: [validate_pdf_file] changes no file and calls the parser once; a
    path that names no file is answered [False], not an exception; and no
    [RuntimeError] ever leaves the function. *)
Theorem validate_pdf_file_only_looks (file_path : string) (w : world) :
  fs (snd (validate_pdf_file E file_path w)) = fs w
  /\ calls (snd (validate_pdf_file E file_path w)) = calls w ++ [FitzOpen file_path]
  /\ (file_at w file_path = None ->
      fst (validate_pdf_file E file_path w) = Ret false)
  /\ (forall e, fst (validate_pdf_file E file_path w) = Exc e ->
                is_RuntimeError e = false).
Proof.
  destruct (file_at w file_path) as [content|] eqn:Hfile.
  - rewrite (validate_pdf_file_unfold E file_path content w Hfile).
    destruct (fitz_document E content) as [e|[|n]].
    + destruct (is_RuntimeError e) eqn:Hcls; cbn [fst snd].
      * repeat split; try discriminate.
      * repeat split; try discriminate. intros e' [= <-]. exact Hcls.
    + repeat split; try discriminate.
    + repeat split; try discriminate.
  - unfold validate_pdf_file, try_except, fitz_open_page_count, log_call, bind,
      print, ret.
    rewrite file_at_add_call, Hfile.
    change (is_RuntimeError (Exn RuntimeError ("no such file: '" +:+ file_path +:+ "'")))
      with true.
    cbn beta iota. repeat split; try discriminate.
Qed.

(** X10: an exception of the parser that is no [RuntimeError] is not
    handled: it ends the sweep at that file, which is kept, and the files
    after it are neither opened nor deleted nor reported. *)
Theorem other_parser_error_stops_the_sweep (pdf_file content : string)
    (later : list string) (w : world) (e : exn) :
  file_at w pdf_file = Some content ->
  fitz_document E content = inl e ->
  is_RuntimeError e = false ->
  for_each (pdf_file :: later) (sweep_file E) w
  = (Exc e, add_call (FitzOpen pdf_file) w).
Proof.
  intros Hfile Hdoc Hcls. cbn [for_each]. unfold bind at 1.
  rewrite (sweep_file_unfold E pdf_file content w Hfile), Hdoc, Hcls.
  reflexivity.
Qed.

Lemma valid_pdf_ext (w w' : world) (pdf_file : string) :
  cwd w' = cwd w -> fs w' = fs w -> valid_pdf E w pdf_file -> valid_pdf E w' pdf_file.
Proof.
  intros Hcwd Hfs (content & pages & Hfile & Hdoc). exists content, pages.
  split; [|exact Hdoc]. unfold file_at, dir_files. rewrite Hcwd, Hfs. exact Hfile.
Qed.

Lemma sweep_of_valid_files (files : list string) :
  forall w,
    Forall (valid_pdf E w) files ->
    exists w',
      for_each files (sweep_file E) w = (Ret tt, w')
      /\ fs w' = fs w /\ cwd w' = cwd w
      /\ stdout w'
         = stdout w
           ++ List.filter
                (fun f => check_upper_case_letter E (get_filename_and_extension f))
                files
      /\ calls w' = calls w ++ map FitzOpen files.
Proof.
  induction files as [|f files IH]; intros w Hall.
  - exists w. cbn. rewrite !app_nil_r. repeat split; reflexivity.
  - apply Forall_cons in Hall. destruct Hall as [(content & pages & Hfile & Hdoc) Hall].
    cbn [for_each]. unfold bind at 1.
    rewrite (sweep_file_unfold E f content w Hfile), Hdoc.
    destruct (IH (reported E f (add_call (FitzOpen f) w)))
      as (w' & Hrun & Hfs & Hcwd & Hout & Hcalls).
    { eapply Forall_impl; [exact Hall|]. intros g. apply valid_pdf_ext.
      - unfold reported. destruct (check_upper_case_letter _); reflexivity.
      - rewrite fs_reported. reflexivity. }
    exists w'. split; [exact Hrun|].
    rewrite Hfs, Hcwd, Hout, Hcalls, fs_reported, calls_reported.
    split; [reflexivity|]. split.
    { unfold reported. destruct (check_upper_case_letter _); reflexivity. }
    split.
    + unfold reported. cbn [List.filter].
      destruct (check_upper_case_letter E (get_filename_and_extension f)); cbn.
      * rewrite <- app_assoc. reflexivity.
      * reflexivity.
    + cbn. rewrite <- app_assoc. reflexivity.
Qed.

(** X11: over files that all open as documents with pages, the sweep
    deletes nothing and ends normally; it opens every file once, in order,
    and prints exactly the paths whose file name holds an upper-case
    letter, in order. *)
Theorem sweep_of_valid_files_only_reports (files : list string) (w : world) :
  Forall (valid_pdf E w) files ->
  exists w',
    for_each files (sweep_file E) w = (Ret tt, w')
    /\ fs w' = fs w
    /\ stdout w'
       = stdout w
         ++ List.filter
              (fun f => check_upper_case_letter E (get_filename_and_extension f))
              files
    /\ calls w' = calls w ++ map FitzOpen files.
Proof.
  intros Hall.
  destruct (sweep_of_valid_files files w Hall)
    as (w' & Hrun & Hfs & _ & Hout & Hcalls).
  exists w'. auto.
Qed.

End Validation.

(** *** The run as a whole *)

Lemma link_call_before_sweep (d : driver) (c : call) :
  link_call d c -> before_sweep c.
Proof. destruct c; simpl; tauto. Qed.

Section Run.

Variable E : Env.

Lemma file_at_without_snapshot (w : world) :
  file_at (without_snapshot w) html_file_path = None.
Proof.
  unfold without_snapshot. destruct (file_at w html_file_path) eqn:Hfile.
  - apply file_at_delete_file.
  - exact Hfile.
Qed.

Lemma without_snapshot_log (w : world) :
  calls (without_snapshot w) = calls w /\ stdout (without_snapshot w) = stdout w.
Proof.
  unfold without_snapshot. destruct (file_at w html_file_path); split; reflexivity.
Qed.

(** the fetch phase when the page load fails *)
Lemma fetch_phase_fails (w : world) (e : exn) :
  load_fails E HtmlDriver page_url e ->
  fetch_phase E w
  = let tried :=
      tried_load E HtmlDriver page_url
        (add_call (Launch HtmlDriver) (without_snapshot w)) in
    if is_TimeoutException e
    then (Ret tt,
          add_call (Quit HtmlDriver)
            (add_stdout created_line
               (add_stdout (timeout_line page_url) tried)))
    else (Exc e, add_call (Quit HtmlDriver) tried).
Proof.
  intros Hfail. rewrite fetch_phase_unfold. fold (without_snapshot w).
  unfold try_finally. unfold bind at 1.
  rewrite (save_html_fails E page_url html_file_path HtmlDriver _ e Hfail).
  destruct (is_TimeoutException e); reflexivity.
Qed.

(** X12: when loading the page times out, the run goes on: no snapshot
    exists, so no link is extracted and the download browser is never
    launched, and [main] continues with the validation sweep.  The fetch
    browser is shut down, and the line telling that the snapshot file has
    been created is printed although no file was written. *)
Theorem fetch_timeout_leaves_only_the_sweep (w : world) (e : exn) :
  load_fails E HtmlDriver page_url e ->
  is_TimeoutException e = true ->
  exists w1,
    main E w = sweep_phase E w1
    /\ file_at w1 html_file_path = None
    /\ fs w1 = fs (without_snapshot w)
    /\ stdout w1 = stdout w ++ [timeout_line page_url; created_line]
    /\ exists tried,
        calls w1 = calls w ++ Launch HtmlDriver :: tried ++ [Quit HtmlDriver]
        /\ (tried = [Get HtmlDriver page_url]
            \/ tried = [Get HtmlDriver page_url; Refresh HtmlDriver]).
Proof.
  intros Hfail Htimeout. unfold main. unfold bind at 1.
  rewrite (fetch_phase_fails w e Hfail), Htimeout. cbn zeta.
  set (tried := tried_load E HtmlDriver page_url
                  (add_call (Launch HtmlDriver) (without_snapshot w))).
  set (w1 := add_call (Quit HtmlDriver)
               (add_stdout created_line (add_stdout (timeout_line page_url) tried))).
  assert (Hnone : file_at w1 html_file_path = None).
  { unfold w1, tried.
    rewrite file_at_add_call, !file_at_add_stdout, tried_load_file_at,
      file_at_add_call.
    apply file_at_without_snapshot. }
  exists w1. split.
  - unfold bind at 1. rewrite (download_phase_without_snapshot E w1 Hnone).
    reflexivity.
  - split; [exact Hnone|].
    destruct (without_snapshot_log w) as [Hcalls Hout].
    split; [|split].
    + unfold w1, tried. cbn [fs add_call add_stdout].
      rewrite tried_load_fs. reflexivity.
    + unfold w1, tried. cbn [stdout add_call add_stdout].
      rewrite tried_load_stdout. cbn [stdout add_call]. rewrite Hout.
      rewrite <- app_assoc. reflexivity.
    + destruct (tried_load_calls E page_url HtmlDriver
                  (add_call (Launch HtmlDriver) (without_snapshot w)))
        as (calls_tried & Htried & Hshape).
      exists calls_tried. split; [|exact Hshape].
      unfold w1, tried. cbn [calls add_call add_stdout]. rewrite Htried.
      cbn [calls add_call]. rewrite Hcalls, <- !app_assoc. reflexivity.
Qed.

(** X13: when loading the page fails with an exception that is no
    [TimeoutException], the run ends with that exception: the fetch
    browser is shut down first, nothing is printed, no link is processed
    and the validation sweep does not take place. *)
Theorem fetch_error_ends_the_run (w : world) (e : exn) :
  load_fails E HtmlDriver page_url e ->
  is_TimeoutException e = false ->
  exists w1,
    main E w = (Exc e, w1)
    /\ fs w1 = fs (without_snapshot w)
    /\ stdout w1 = stdout w
    /\ exists tried,
        calls w1 = calls w ++ Launch HtmlDriver :: tried ++ [Quit HtmlDriver]
        /\ (tried = [Get HtmlDriver page_url]
            \/ tried = [Get HtmlDriver page_url; Refresh HtmlDriver]).
Proof.
  intros Hfail Hother. unfold main. unfold bind at 1.
  rewrite (fetch_phase_fails w e Hfail), Hother. cbn zeta.
  eexists. split; [reflexivity|].
  destruct (without_snapshot_log w) as [Hcalls Hout].
  split; [|split].
  - cbn [fs add_call]. rewrite tried_load_fs. reflexivity.
  - cbn [stdout add_call]. rewrite tried_load_stdout. exact Hout.
  - destruct (tried_load_calls E page_url HtmlDriver
                (add_call (Launch HtmlDriver) (without_snapshot w)))
      as (calls_tried & Htried & Hshape).
    exists calls_tried. split; [|exact Hshape].
    cbn [calls add_call]. rewrite Htried.
    cbn [calls add_call]. rewrite Hcalls, <- !app_assoc. reflexivity.
Qed.

Lemma process_link_calls (output_dir : string) (d : driver) (pdf_link : string)
    (w : world) :
  exists made,
    calls (snd (process_link E output_dir d pdf_link w)) = calls w ++ made
    /\ Forall (link_call d) made.
Proof.
  rewrite process_link_unfold.
  destruct (url_to_filename E (fix_relative_url E pdf_link)) as [e|filename].
  - exists [ValidateUrl pdf_link]. cbn [snd]. rewrite validated_calls.
    split; [reflexivity|]. repeat constructor.
  - destruct (download_single_pdf_calls E output_dir d
                (fix_relative_url E pdf_link) filename (validated E pdf_link w))
      as (navigation & Hcalls & Hshape & _).
    rewrite validated_calls, <- app_assoc in Hcalls.
    eexists. split.
    + destruct (download_single_pdf _ _ _ _ _ _) as [[[]|e|] w']; exact Hcalls.
    + destruct Hshape as [-> | ->]; repeat constructor.
Qed.

Lemma download_loop_calls (output_dir : string) (d : driver)
    (pdf_links : list string) :
  forall w,
    exists made,
      calls (snd (for_each pdf_links (process_link E output_dir d) w))
      = calls w ++ made
      /\ Forall (link_call d) made.
Proof.
  induction pdf_links as [|pdf_link rest IH]; intros w.
  - exists []. cbn. rewrite app_nil_r. auto.
  - cbn [for_each]. unfold bind at 1.
    destruct (process_link_calls output_dir d pdf_link w) as (made & Hmade & Hall).
    destruct (process_link E output_dir d pdf_link w) as [[[]|e|] w1];
      cbn [snd] in Hmade |- *; [|eauto|eauto].
    destruct (IH w1) as (more & Hmore & Hall').
    exists (made ++ more). rewrite Hmore, Hmade, <- app_assoc.
    split; [reflexivity|]. apply Forall_app. auto.
Qed.

Lemma validated_links_app (made more : list call) :
  validated_links (made ++ more) = validated_links made ++ validated_links more.
Proof. unfold validated_links. apply omap_app. Qed.

Lemma process_link_validates (output_dir : string) (d : driver)
    (pdf_link : string) (w : world) :
  validated_links (calls (snd (process_link E output_dir d pdf_link w)))
  = validated_links (calls w) ++ [pdf_link].
Proof.
  rewrite process_link_unfold.
  destruct (url_to_filename E (fix_relative_url E pdf_link)) as [e|filename].
  - cbn [snd]. rewrite validated_calls, validated_links_app. reflexivity.
  - destruct (download_single_pdf_calls E output_dir d
                (fix_relative_url E pdf_link) filename (validated E pdf_link w))
      as (navigation & Hcalls & Hshape & _).
    rewrite validated_calls in Hcalls.
    assert (Hlinks : validated_links
                       (calls (snd (download_single_pdf E
                                      (fix_relative_url E pdf_link) filename
                                      output_dir d (validated E pdf_link w))))
                     = validated_links (calls w) ++ [pdf_link]).
    { rewrite Hcalls, !validated_links_app.
      destruct Hshape as [-> | ->]; cbn; rewrite ?app_nil_r; reflexivity. }
    destruct (download_single_pdf _ _ _ _ _ _) as [[[]|e|] w']; exact Hlinks.
Qed.

(** X17: the download loop asks the validator about the links one by one
    in the order of the list, each link once; when the loop ends normally
    every link of the list has been asked about. *)
Theorem every_link_is_validated_once_in_order (output_dir : string) (d : driver)
    (pdf_links : list string) (w : world) :
  exists handled skipped,
    pdf_links = handled ++ skipped
    /\ validated_links
         (calls (snd (for_each pdf_links (process_link E output_dir d) w)))
       = validated_links (calls w) ++ handled
    /\ (fst (for_each pdf_links (process_link E output_dir d) w) = Ret tt ->
        skipped = []).
Proof.
  revert w. induction pdf_links as [|pdf_link rest IH]; intros w.
  - exists [], []. cbn. rewrite app_nil_r. auto.
  - cbn [for_each]. unfold bind at 1 2.
    pose proof (process_link_validates output_dir d pdf_link w) as Hone.
    destruct (process_link E output_dir d pdf_link w) as [[[]|e|] w1];
      cbn [snd] in Hone.
    + destruct (IH w1) as (handled & skipped & Hsplit & Hlinks & Hall).
      exists (pdf_link :: handled), skipped.
      split; [cbn; congruence|]. split; [|exact Hall].
      rewrite Hlinks, Hone, <- app_assoc. reflexivity.
    + exists [pdf_link], rest. split; [reflexivity|].
      split; [exact Hone|discriminate].
    + exists [pdf_link], rest. split; [reflexivity|].
      split; [exact Hone|discriminate].
Qed.

(** X14: the download browser is launched only when a snapshot exists,
    and then it is shut down on every way out of the loop, an exception
    included: the calls of the phase are the launch, the calls made for
    the links (validations and navigations of that browser) and the
    shutdown, after which the browser writes nowhere. *)
Theorem download_browser_is_always_shut_down (w : world) :
  match file_at w html_file_path with
  | None => download_phase E w = (Ret tt, w)
  | Some _ =>
      fst (download_phase E w) <> Hang ->
      exists made,
        calls (snd (download_phase E w))
        = calls w ++ Launch DownloadDriver :: made ++ [Quit DownloadDriver]
        /\ Forall (link_call DownloadDriver) made
        /\ download_dir (snd (download_phase E w)) = None
  end.
Proof.
  destruct (file_at w html_file_path) as [html|] eqn:Hfile;
    [|apply download_phase_without_snapshot; exact Hfile].
  rewrite (download_phase_with_snapshot E w html Hfile).
  set (w0 := browsing w).
  destruct (download_loop_calls (Path.abspath (cwd w) "PDFs") DownloadDriver
              (links_of E html) w0)
    as (made & Hmade & Hall).
  unfold try_finally.
  destruct (for_each _ _ w0) as [[[]|e|] w1]; cbn [snd] in Hmade;
    cbn; intros Hrun; try contradiction;
    (exists made; rewrite Hmade; unfold w0, browsing; cbn; rewrite <- !app_assoc; auto).
Qed.

Lemma fetch_phase_calls (w : world) :
  exists made,
    calls (snd (fetch_phase E w)) = calls w ++ made /\ Forall before_sweep made.
Proof.
  rewrite fetch_phase_unfold. fold (without_snapshot w).
  destruct (without_snapshot_log w) as [Hcalls _]. revert Hcalls.
  generalize (without_snapshot w). intros w0 Hcalls.
  unfold try_finally, save_html_with_selenium, try_except, driver_get,
    driver_refresh, driver_quit, append_write_to_file, open_append, bind,
    log_call, print, ret, raise.
  destruct (driver_get_raises E HtmlDriver page_url) as [e|].
  - destruct (is_TimeoutException e); cbn; rewrite Hcalls, <- !app_assoc;
      (eexists; split; [reflexivity|repeat constructor]).
  - destruct (driver_refresh_raises E HtmlDriver page_url) as [e|].
    + destruct (is_TimeoutException e); cbn; rewrite Hcalls, <- !app_assoc;
        (eexists; split; [reflexivity|repeat constructor]).
    + cbn. rewrite Hcalls, <- !app_assoc.
      eexists; split; [reflexivity|repeat constructor].
Qed.

Lemma download_phase_calls (w : world) :
  exists made,
    calls (snd (download_phase E w)) = calls w ++ made /\ Forall before_sweep made.
Proof.
  destruct (file_at w html_file_path) as [html|] eqn:Hfile.
  - rewrite (download_phase_with_snapshot E w html Hfile).
    set (w0 := browsing w).
    destruct (download_loop_calls (Path.abspath (cwd w) "PDFs") DownloadDriver
                (links_of E html) w0)
      as (made & Hmade & Hall).
    assert (Hall' : Forall before_sweep made)
      by (eapply Forall_impl; [exact Hall|apply link_call_before_sweep]).
    unfold try_finally.
    destruct (for_each _ _ w0) as [[[]|e|] w1]; cbn [snd] in Hmade; cbn;
      rewrite Hmade; unfold w0, browsing; cbn; rewrite <- ?app_assoc.
    + exists (Launch DownloadDriver :: made ++ [Quit DownloadDriver]).
      split; [reflexivity|]. constructor; [exact I|].
      apply Forall_app. split; [exact Hall'|repeat constructor].
    + exists (Launch DownloadDriver :: made ++ [Quit DownloadDriver]).
      split; [reflexivity|]. constructor; [exact I|].
      apply Forall_app. split; [exact Hall'|repeat constructor].
    + exists (Launch DownloadDriver :: made).
      split; [reflexivity|]. constructor; [exact I|exact Hall'].
  - rewrite (download_phase_without_snapshot E w Hfile). exists [].
    cbn. rewrite app_nil_r. auto.
Qed.

Lemma sweep_phase_calls (w : world) :
  exists visited,
    calls (snd (sweep_phase E w)) = calls w ++ map FitzOpen visited.
Proof.
  destruct (walk_collects "./PDFs" ".pdf" w) as (walked & _ & Hcol).
  unfold sweep_phase. unfold bind at 1. rewrite Hcol.
  destruct (sweep_loop_confined E (collected (cwd w) ".pdf" walked) w)
    as (_ & (visited & unvisited & _ & Hcalls) & _).
  exists visited. exact Hcalls.
Qed.

(** X15: in a run, validation comes after everything else: the calls of
    [main] are browser calls and URL validations first, then the calls of
    the PDF parser, and none of the former after one of the latter; no
    file is opened for validation while a download may still go on. *)
Theorem validation_follows_all_downloads (w : world) :
  exists earlier visited,
    calls (snd (main E w)) = calls w ++ earlier ++ map FitzOpen visited
    /\ Forall before_sweep earlier.
Proof.
  unfold main. unfold bind at 1.
  destruct (fetch_phase_calls w) as (made1 & Hmade1 & Hall1).
  destruct (fetch_phase E w) as [[[]|e|] w1]; cbn [snd] in Hmade1;
    [|exists made1, []; cbn; rewrite app_nil_r; auto
     |exists made1, []; cbn; rewrite app_nil_r; auto].
  unfold bind at 1.
  destruct (download_phase_calls w1) as (made2 & Hmade2 & Hall2).
  destruct (download_phase E w1) as [[[]|e|] w2]; cbn [snd] in Hmade2;
    [|exists (made1 ++ made2), []; cbn;
      rewrite app_nil_r, Hmade2, Hmade1, <- app_assoc;
      split; [reflexivity|apply Forall_app; auto]
     |exists (made1 ++ made2), []; cbn;
      rewrite app_nil_r, Hmade2, Hmade1, <- app_assoc;
      split; [reflexivity|apply Forall_app; auto]].
  destruct (sweep_phase_calls w2) as (visited & Hvisited).
  exists (made1 ++ made2), visited.
  rewrite Hvisited, Hmade2, Hmade1, <- !app_assoc.
  split; [reflexivity|apply Forall_app; auto].
Qed.

End Run.

(** *** Runs of the further properties *)

Lemma sheet1_is_never_reported :
  get_filename_and_extension (Path.join "/srv/app/PDFs" "sheet1.pdf") = "sheet1.pdf"
  /\ check_upper_case_letter Demo.env
       (get_filename_and_extension (Path.join "/srv/app/PDFs" "sheet1.pdf")) = false.
Proof.
  apply (derived_name_is_never_reported Demo.env
           "https://www.biokleen.com/sds/Sheet1.PDF").
  vm_compute. reflexivity.
Defined.

Lemma found_document_is_new :
  exists f,
    "/srv/app/PDFs/doc.pdf" = Path.join "/srv/app/PDFs" f
    /\ (f ∉ (∅ : gset string)) /\ is_pdf_name f = true.
Proof.
  destruct (wait_returns_only_new_pdf "/srv/app/PDFs" ∅ 3 Demo.downloading
              "/srv/app/PDFs/doc.pdf"
              (snd (wait_for_pdf_download "/srv/app/PDFs" ∅ 3 Demo.downloading)))
    as (f & Hpath & Hnew & Hpdf & _).
  - vm_compute. reflexivity.
  - exists f. auto.
Defined.


Lemma timed_out_page_is_not_saved :
  fs (snd (save_html_with_selenium
             (Demo.env_failing_with (Exn TimeoutException "timeout"))
             page_url html_file_path HtmlDriver Demo.cached))
  = fs Demo.cached
  /\ fst (save_html_with_selenium
            (Demo.env_failing_with (Exn TimeoutException "timeout"))
            page_url html_file_path HtmlDriver Demo.cached)
     = Ret tt.
Proof.
  destruct (save_html_failure_writes_nothing
              (Demo.env_failing_with (Exn TimeoutException "timeout"))
              page_url html_file_path HtmlDriver Demo.cached
              (Exn TimeoutException "timeout")) as (Hfs & Hout & _).
  - left. reflexivity.
  - split; [exact Hfs|exact Hout].
Defined.


Lemma locked_file_stops_the_sweep :
  for_each ["/srv/app/PDFs/a.pdf"; "/srv/app/PDFs/b.pdf"]
    (sweep_file Demo.strict_env) Demo.guarded
  = (Exc (Exn ValueError "document closed or encrypted"),
     add_call (FitzOpen "/srv/app/PDFs/a.pdf") Demo.guarded).
Proof.
  apply (other_parser_error_stops_the_sweep Demo.strict_env
           "/srv/app/PDFs/a.pdf" "locked").
  - vm_compute. reflexivity.
  - vm_compute. reflexivity.
  - vm_compute. reflexivity.
Defined.

Lemma tidy_directory_is_only_reported :
  exists w',
    for_each ["/srv/app/PDFs/Sheet.pdf"; "/srv/app/PDFs/sheet1.pdf"]
      (sweep_file Demo.env) Demo.tidy = (Ret tt, w')
    /\ fs w' = fs Demo.tidy
    /\ stdout w' = ["/srv/app/PDFs/Sheet.pdf"].
Proof.
  destruct (sweep_of_valid_files_only_reports Demo.env
              ["/srv/app/PDFs/Sheet.pdf"; "/srv/app/PDFs/sheet1.pdf"] Demo.tidy)
    as (w' & Hrun & Hfs & Hout & _).
  - constructor; [|constructor; [|constructor]].
    + exists "%PDF-1.7", 0%nat. split; vm_compute; reflexivity.
    + exists "%PDF-1.4", 0%nat. split; vm_compute; reflexivity.
  - exists w'. split; [exact Hrun|]. split; [exact Hfs|].
    rewrite Hout. vm_compute. reflexivity.
Defined.

Lemma timed_out_fetch_goes_on_to_the_sweep :
  exists w1,
    main (Demo.env_failing_with (Exn TimeoutException "timeout")) Demo.swept
    = sweep_phase (Demo.env_failing_with (Exn TimeoutException "timeout")) w1
    /\ stdout w1 = [timeout_line page_url; created_line].
Proof.
  destruct (fetch_timeout_leaves_only_the_sweep
              (Demo.env_failing_with (Exn TimeoutException "timeout"))
              Demo.swept (Exn TimeoutException "timeout"))
    as (w1 & Hrun & _ & _ & Hout & _).
  - left. reflexivity.
  - reflexivity.
  - exists w1. split; [exact Hrun|exact Hout].
Defined.

Lemma failed_fetch_ends_the_run :
  exists w1,
    main (Demo.env_failing_with (Exn WebDriverException "no session")) Demo.swept
    = (Exc (Exn WebDriverException "no session"), w1)
    /\ stdout w1 = [].
Proof.
  destruct (fetch_error_ends_the_run
              (Demo.env_failing_with (Exn WebDriverException "no session"))
              Demo.swept (Exn WebDriverException "no session"))
    as (w1 & Hrun & _ & Hout & _).
  - left. reflexivity.
  - reflexivity.
  - exists w1. split; [exact Hrun|exact Hout].
Defined.


(** a document whose name holds a capital letter outside ASCII is
    reported as well *)
Example accented_capital_is_reported :
  sweep_phase Demo.env Demo.accented
  = (Ret tt,
     add_stdout
       ("/srv/app/PDFs/"
        +:+ String (ascii_of_nat 195) (String (ascii_of_nat 137) ".pdf"))
       (add_call
          (FitzOpen
             ("/srv/app/PDFs/"
              +:+ String (ascii_of_nat 195) (String (ascii_of_nat 137) ".pdf")))
          Demo.accented)).
Proof. vm_compute. reflexivity. Qed.
